(** * PLGA portal: the activity interval model and its overlap queries

    A shallow embedding of the activity routes of [server.js] (the Express
    application of the PLGA portal) and the properties of its creation,
    query and deletion handlers.  The routes are those of the revision
    whose activities have an end date and a full-day flag; the day query
    of the revision before it is kept in [Legacy].

    Conventions of the embedding.
    - A JavaScript string is a [string]: a sequence of character codes,
      compared code by code ([<] and [>=] of JavaScript on two strings,
      [$lte]/[$gte] and the sort of the document store on string fields).
    - The text fields of a request ([date], [endDate], [title], ...) are
      [option string]: [None] is JavaScript's [undefined], an absent field.
      [isFullDay] is compared with [===] against values of several types
      and is a [jsval].
    - The collection behind the [Activity] model is a finite map from
      identifiers to documents.  Its operations are total: an unreachable
      database is outside the model.
    - The clock ([Date.now]) is an argument of the handlers that read it,
      and so is the time zone of the process for the handler that builds
      a [Date]. *)

From Stdlib Require Import ZArith Ascii String DecimalString DecimalPos.
From stdpp Require Import strings gmap sorting.

Local Open Scope Z_scope.

(** ** JavaScript values and strings *)

(** The values a body field can hold, as far as [===] tells them apart.
    [JObject] stands for arrays and objects, which are never [===] to a
    primitive. *)
Inductive jsval : Type :=
| JUndefined
| JNull
| JBool (b : bool)
| JNum (n : Z)
| JStr (s : string)
| JObject.

(** Truthiness of a field that is a string or absent: [truthy v] is
    [Some s] when [v] is the non-empty string [s], and [None] when [!v]
    holds ([undefined] and the empty string are falsy). *)
Definition truthy (v : option string) : option string :=
  match v with
  | Some "" => None
  | Some s => Some s
  | None => None
  end.

(** [a < b]: on two strings the comparison of their character codes; with
    [undefined] on either side both operands become numbers, [undefined]
    becomes [NaN] and the comparison is false. *)
Definition js_lt (a b : option string) : bool :=
  match a, b with
  | Some a, Some b => String.ltb a b
  | _, _ => false
  end.

(** A value in a template literal. *)
Definition template (v : option string) : string := default "undefined" v.

(** ** Documents *)

Definition ObjectId : Type := N.
Definition Timestamp : Type := Z.

(** The file objects multer puts in [req.files]. *)
Module File.
Record t : Type := mk {
    fieldname : string;
    originalname : string;
    mimetype : string;
    size : Z;
    filename : string
}.
End File.

(** [attachmentSchema]. *)
Module Attachment.
Record t : Type := mk {
    fileName : string;
    originalName : string;
    mimeType : string;
    size : Z;
    url : string;
    uploadedAt : Timestamp
}.
End Attachment.

(** [activitySchema]: a document of the collection, after casting and
    defaults. *)
Module Activity.
Record t : Type := mk {
    date : string;
    endDate : string;
    isFullDay : bool;
    title : string;
    category : string;
    phase : string;
    status : string;
    startTime : string;
    endTime : string;
    notes : string;
    attachments : list Attachment.t;
    createdAt : Timestamp
}.
End Activity.

(** [req.body] of the creation route. *)
Module Body.
Record t : Type := mk {
    date : option string;
    endDate : option string;
    title : option string;
    category : option string;
    phase : option string;
    status : option string;
    startTime : option string;
    endTime : option string;
    notes : option string;
    isFullDay : jsval
}.
End Body.

(** A stored document with its [_id], and the collection. *)
Abbreviation Doc := (ObjectId * Activity.t)%type.
Abbreviation Store := (gmap ObjectId Activity.t).

(** ** Responses *)

Inductive MulterError : Type :=
| LIMIT_UNEXPECTED_FILE (field : string).

Inductive response : Type :=
| Created (id : ObjectId) (activity : Activity.t)
    (* res.json({ success: true, activity }) *)
| Listing (activities : list Doc)
    (* res.json({ success: true, activities }) *)
| Success
    (* res.json({ success: true }) *)
| Failure (code : Z) (message : string)
    (* res.status(code).json({ success: false, message }) *)
| Unhandled (err : MulterError).
    (* next(err): the handler of the route is not called *)

(** ** The Activity model *)

(** A [required] string path rejects the empty string. *)
Definition required (s : string) : bool := negb (String.eqb s "").

(** [new Activity({...})] followed by the validation that [save] runs:
    paths left [undefined] take their schema default, the three required
    paths must hold a non-empty string, and [None] is the ValidationError
    that [save] throws. *)
Definition newActivity (now : Timestamp)
    (date endDate : option string) (isFullDay : bool)
    (title category phase status startTime endTime notes : option string)
    (attachments : list Attachment.t) : option Activity.t :=
  match date, endDate, title with
  | Some date, Some endDate, Some title =>
      if required date && required endDate && required title then
        Some {| Activity.date := date;
                Activity.endDate := endDate;
                Activity.isFullDay := isFullDay;
                Activity.title := title;
                Activity.category := default "Other" category;
                Activity.phase := default "Unspecified" phase;
                Activity.status := default "Planned" status;
                Activity.startTime := default "" startTime;
                Activity.endTime := default "" endTime;
                Activity.notes := default "" notes;
                Activity.attachments := attachments;
                Activity.createdAt := now |}
      else None
  | _, _, _ => None
  end.

(** [activity.save()]: the document is stored under a new identifier. *)
Definition save (a : Activity.t) (st : Store) : ObjectId * Store :=
  let id := fresh (dom st) in (id, <[id := a]> st).

(** [Activity.find(filter)], in the order the collection yields. *)
Definition find (filter : Activity.t -> bool) (st : Store) : list Doc :=
  List.filter (fun d => filter d.2) (map_to_list st).

(** [$lte] and [$gte] on a string path. *)
Definition lte (field value : string) : bool := String.leb field value.
Definition gte (field value : string) : bool := String.leb value field.

(** [.sort({ date: 1, startTime: 1, createdAt: 1 })]: the keys are compared
    in this order, each ascending. *)
Definition thenBy (c1 c2 : comparison) : comparison :=
  match c1 with
  | Eq => c2
  | _ => c1
  end.

Definition compareActivity (a b : Activity.t) : comparison :=
  thenBy (String.compare (Activity.date a) (Activity.date b))
    (thenBy (String.compare (Activity.startTime a) (Activity.startTime b))
       (Z.compare (Activity.createdAt a) (Activity.createdAt b))).

Definition sortLe (x y : Doc) : Prop := compareActivity x.2 y.2 <> Gt.

#[global] Instance sortLe_dec : RelDecision sortLe.
Proof. intros x y. unfold sortLe. apply _. Defined.

(** The order among documents with equal keys is left to the store; the
    model takes the one of a merge sort. *)
Definition sortDocs (l : list Doc) : list Doc := merge_sort sortLe l.

(** ** POST /api/activities *)

(** [upload.array(name, maxCount)]: every file part must come under the
    field [name], and at most [maxCount] of them; the first part that
    breaks this aborts the request with [LIMIT_UNEXPECTED_FILE].  The
    parts are the file parts this check of multer sees, in the order of
    the request: multer passes over a part without a file name before it,
    and its limits on the text fields are outside the model. *)
Fixpoint uploadArray (name : string) (maxCount : nat) (parts : list File.t)
    {struct parts} : MulterError + list File.t :=
  match parts with
  | [] => inr []
  | file :: rest =>
      if String.eqb (File.fieldname file) name then
        match maxCount with
        | O => inl (LIMIT_UNEXPECTED_FILE (File.fieldname file))
        | S filesLeft =>
            match uploadArray name filesLeft rest with
            | inl err => inl err
            | inr files => inr (file :: files)
            end
        end
      else inl (LIMIT_UNEXPECTED_FILE (File.fieldname file))
  end.

Definition fullDayFlag (isFullDay : jsval) : bool :=
  match isFullDay with
  | JStr s => String.eqb s "true" || String.eqb s "on"
  | JBool b => b
  | _ => false
  end.

Definition toAttachment (now : Timestamp) (file : File.t) : Attachment.t :=
  {| Attachment.fileName := File.filename file;
     Attachment.originalName := File.originalname file;
     Attachment.mimeType := File.mimetype file;
     Attachment.size := File.size file;
     Attachment.url := "/uploads/" +:+ File.filename file;
     Attachment.uploadedAt := now |}.

(** The handler of the route, given [req.body] and [req.files]. *)
Definition createActivity (now : Timestamp) (body : Body.t)
    (files : list File.t) (st : Store) : response * Store :=
  let date := Body.date body in
  let endDate := Body.endDate body in
  let title := Body.title body in
  let startTime := Body.startTime body in
  let endTime := Body.endTime body in
  match truthy date, truthy title with
  | Some _, Some _ =>
      (* Normalise endDate *)
      let endDate := if truthy endDate is Some _ then endDate else date in
      (* Make sure endDate >= date *)
      let endDate := if js_lt endDate date then date else endDate in
      let fullDayFlag := fullDayFlag (Body.isFullDay body) in
      (* If full day, clear times *)
      let startTime := if fullDayFlag then Some "" else startTime in
      let endTime := if fullDayFlag then Some "" else endTime in
      let attachments := toAttachment now <$> files in
      match newActivity now date endDate fullDayFlag title
              (Body.category body) (Body.phase body) (Body.status body)
              startTime endTime (Body.notes body) attachments with
      | Some activity =>
          let '(id, st') := save activity st in
          (Created id activity, st')
      | None => (Failure 500 "Server error.", st)
      end
  | _, _ => (Failure 400 "Date and title are required.", st)
  end.

(** The route: the upload middleware, then the handler. *)
Definition postActivities (now : Timestamp) (body : Body.t)
    (parts : list File.t) (st : Store) : response * Store :=
  match uploadArray "files" 10 parts with
  | inl err => (Unhandled err, st)
  | inr files => createActivity now body files st
  end.

(** ** GET /api/activities/day *)

Definition dayQuery (date : option string) (st : Store) : response :=
  match truthy date with
  | Some date =>
      Listing (sortDocs (find (fun a => lte (Activity.date a) date
                                        && gte (Activity.endDate a) date) st))
  | None => Failure 400 "Date is required."
  end.

(** ** GET /api/activities *)

(** Numbers are exact integers, [None] standing for [NaN].  JavaScript's
    numbers are doubles: they are these integers from -2^53 to 2^53, the
    safe integers, and the model follows JavaScript there.  Beyond them
    [parseInt] rounds and [toString] abbreviates; the month handler
    answers [NaN] to every number that large (lemma [getDateOf_beyond]),
    and the properties of [pad2] are stated for safe integers. *)
Definition number : Type := option Z.

(** [s.split(sep)] for a separator of one character. *)
Fixpoint split (sep : ascii) (s : string) : list string :=
  match s with
  | EmptyString => [EmptyString]
  | String c rest =>
      if Ascii.eqb c sep then EmptyString :: split sep rest
      else match split sep rest with
           | piece :: pieces => String c piece :: pieces
           | [] => [String c EmptyString]
           end
  end.

(** The white space [parseInt] skips, by character code: TAB, LF, VT, FF,
    CR, SP and NBSP. *)
Definition isWhiteSpace (c : ascii) : bool :=
  match N_of_ascii c with
  | 9 | 10 | 11 | 12 | 13 | 32 | 160 => true
  | _ => false
  end%N.

Fixpoint trimStart (s : string) : string :=
  match s with
  | String c rest => if isWhiteSpace c then trimStart rest else s
  | EmptyString => s
  end.

(** The value of a decimal digit, codes 48 to 57. *)
Definition digit (c : ascii) : option Z :=
  let code := Z.of_N (N_of_ascii c) in
  if (48 <=? code) && (code <=? 57) then Some (code - 48) else None.

(** The value of the longest prefix of decimal digits, [acc] being the
    value read so far ([None] when no digit has been read). *)
Fixpoint digits (acc : number) (s : string) : number :=
  match s with
  | String c rest =>
      match digit c with
      | Some d => digits (Some (10 * default 0 acc + d)) rest
      | None => acc
      end
  | EmptyString => acc
  end.

(** [parseInt(v, 10)]: the integer the digits denote, which is the result
    of JavaScript when it is a safe integer. *)
Definition parseInt (v : option string) : number :=
  match trimStart (template v) with
  | String "-" rest => Z.opp <$> digits None rest
  | String "+" rest => digits None rest
  | s => digits None s
  end.

(** Day number of the first day of year [y], counted from 1970-01-01. *)
Definition DayFromYear (y : Z) : Z :=
  365 * (y - 1970) + (y - 1969) / 4 - (y - 1901) / 100 + (y - 1601) / 400.

Definition DaysInYear (y : Z) : Z := DayFromYear (y + 1) - DayFromYear y.

Definition InLeapYear (y : Z) : Z := DaysInYear y - 365.

(** The year a day number falls in: the largest [y] with
    [DayFromYear y <= day], found from an estimate that is off by at most
    one. *)
Definition YearFromDay (day : Z) : Z :=
  let y := 1970 + day * 400 / 146097 in
  if DayFromYear (y + 1) <=? day then y + 1
  else if DayFromYear y <=? day then y
  else y - 1.

(** Days of the year before month [mn] (0 to 11). *)
Definition DayWithinYearOfMonth (leap mn : Z) : Z :=
  match mn with
  | 0 => 0
  | 1 => 31
  | 2 => 59 + leap
  | 3 => 90 + leap
  | 4 => 120 + leap
  | 5 => 151 + leap
  | 6 => 181 + leap
  | 7 => 212 + leap
  | 8 => 243 + leap
  | 9 => 273 + leap
  | 10 => 304 + leap
  | _ => 334 + leap
  end.

Definition MakeDay (year month date : Z) : Z :=
  let ym := year + month / 12 in
  let mn := month mod 12 in
  DayFromYear ym + DayWithinYearOfMonth (InLeapYear ym) mn + date - 1.

Definition MonthFromDay (day : Z) : Z :=
  let y := YearFromDay day in
  let leap := InLeapYear y in
  let d := day - DayFromYear y in
  if d <? 31 then 0
  else if d <? 59 + leap then 1
  else if d <? 90 + leap then 2
  else if d <? 120 + leap then 3
  else if d <? 151 + leap then 4
  else if d <? 181 + leap then 5
  else if d <? 212 + leap then 6
  else if d <? 243 + leap then 7
  else if d <? 273 + leap then 8
  else if d <? 304 + leap then 9
  else if d <? 334 + leap then 10
  else 11.

Definition DateFromDay (day : Z) : Z :=
  let y := YearFromDay day in
  day - DayFromYear y
  - DayWithinYearOfMonth (InLeapYear y) (MonthFromDay day) + 1.

(** The time zone of the process, in milliseconds ahead of UTC:
    [offsetAt t] is the offset in force at the UTC time [t] (the
    [LocalTZA(t, true)] of ECMAScript) and [offsetOf t] the offset by which
    the local time [t] is read ([LocalTZA(t, false)]: for a local time
    that a change of offset skips, the offset before the change). *)
Record TimeZone : Type := mkZone {
    offsetAt : Z -> Z;
    offsetOf : Z -> Z
}.

Definition msPerDay : Z := 86400000.

Definition Day (t : Z) : Z := t / msPerDay.

Definition LocalTime (tz : TimeZone) (t : Z) : Z := t + offsetAt tz t.

Definition UTC (tz : TimeZone) (t : Z) : Z := t - offsetOf tz t.

(** A time more than 100,000,000 days from 1970-01-01 is no time value. *)
Definition TimeClip (t : Z) : number :=
  if Z.abs t <=? 100000000 * msPerDay then Some t else None.

(** [new Date(year, month, date).getDate()]: a year from 0 to 99 is taken
    in the twentieth century, the date is the local midnight of the day,
    and [getDate] reads the local day of the time value so made. *)
Definition getDateOf (tz : TimeZone) (year month : number) (date : Z)
    : number :=
  match year, month with
  | Some y, Some m =>
      let yr := if (0 <=? y) && (y <=? 99) then 1900 + y else y in
      let day := MakeDay yr m date in
      match TimeClip (UTC tz (day * msPerDay)) with
      | Some t => Some (DateFromDay (Day (LocalTime tz t)))
      | None => None
      end
  | _, _ => None
  end.

(** [n.toString()], for [NaN] and the safe integers. *)
Definition toString (n : number) : string :=
  match n with
  | Some z => NilZero.string_of_int (Z.to_int z)
  | None => "NaN"
  end.

(** [s.padStart(targetLength, "0")]. *)
Definition padStart (targetLength : nat) (s : string) : string :=
  String.concat "" (replicate (targetLength - String.length s) "0") +:+ s.

Definition pad2 (n : number) : string := padStart 2 (toString n).

(** The bounds [(startOfMonth, endOfMonth)] the handler computes. *)
Definition monthBounds (tz : TimeZone) (month : string) : string * string :=
  let parts := split "-" month in
  let yearStr := parts !! 0%nat in
  let monthStr := parts !! 1%nat in
  let y := parseInt yearStr in
  let m := parseInt monthStr in
  let startOfMonth := template yearStr +:+ "-" +:+ template monthStr +:+ "-01" in
  let lastDayNum := getDateOf tz y m 0 in
  let endOfMonth :=
    template yearStr +:+ "-" +:+ template monthStr +:+ "-" +:+ pad2 lastDayNum in
  (startOfMonth, endOfMonth).

Definition monthFilter (tz : TimeZone) (month : option string)
    (a : Activity.t) : bool :=
  match truthy month with
  | Some month =>
      let '(startOfMonth, endOfMonth) := monthBounds tz month in
      lte (Activity.date a) endOfMonth && gte (Activity.endDate a) startOfMonth
  | None => true
  end.

Definition monthQuery (tz : TimeZone) (month : option string) (st : Store)
    : response :=
  Listing (sortDocs (find (monthFilter tz month) st)).

(** ** DELETE /api/activities/:id *)

Section Deletion.

(** The cast of the route parameter to an identifier of the collection;
    [findByIdAndDelete] throws on a string that is not one. *)
Variable castObjectId : string -> option ObjectId.

Definition deleteActivity (id : string) (st : Store) : response * Store :=
  match castObjectId id with
  | Some oid => (Success, delete oid st)
  | None => (Failure 500 "Server error.", st)
  end.

End Deletion.

(** ** The earlier revision of the day query

    Before activities had an end date the schema held [date] alone, and
    the day query matched it: [Activity.find({ date })], sorted by
    [{ startTime: 1, createdAt: 1 }]. *)
Module Legacy.

Definition compareTimes (a b : Activity.t) : comparison :=
  thenBy (String.compare (Activity.startTime a) (Activity.startTime b))
    (Z.compare (Activity.createdAt a) (Activity.createdAt b)).

Definition timeLe (x y : Doc) : Prop := compareTimes x.2 y.2 <> Gt.

#[global] Instance timeLe_dec : RelDecision timeLe.
Proof. intros x y. unfold timeLe. apply _. Defined.

Definition dayQuery (date : option string) (st : Store) : response :=
  match truthy date with
  | Some date =>
      Listing (merge_sort timeLe
                 (find (fun a => String.eqb (Activity.date a) date) st))
  | None => Failure 400 "Date is required."
  end.

End Legacy.

(** * Reference notions *)

(** A three-way comparison that decides a strict total order. *)
Class Comparison {K : Type} (cmp : K -> K -> comparison) : Prop := {
  cmp_eq a b : cmp a b = Eq <-> a = b;
  cmp_antisym a b : cmp b a = CompOpp (cmp a b);
  cmp_lt_trans a b c : cmp a b = Lt -> cmp b c = Lt -> cmp a c = Lt
}.
Arguments cmp_eq {K} cmp {_} a b.
Arguments cmp_antisym {K} cmp {_} a b.
Arguments cmp_lt_trans {K} cmp {_} a b c.

(** The keys of the sort, in their order. *)
Definition sortKey (a : Activity.t) : string * (string * Timestamp) :=
  (Activity.date a, (Activity.startTime a, Activity.createdAt a)).

Definition compareKey (a b : string * (string * Timestamp)) : comparison :=
  thenBy (String.compare a.1 b.1)
    (thenBy (String.compare a.2.1 b.2.1) (Z.compare a.2.2 b.2.2)).

(** A field is missing when it is absent or empty. *)
Definition missing (v : option string) : Prop := v = None \/ v = Some "".

(** The response of a rejected request. *)
Definition ValidationError (r : response) : Prop :=
  exists message, r = Failure 400 message.

(** The end date the handler stores for the start date [d]. *)
Definition storedEndDate (d : string) (endDate : option string) : string :=
  match truthy endDate with
  | Some e => if String.ltb e d then d else e
  | None => d
  end.

(** The Gregorian calendar: leap years and the lengths of the months. *)
Definition isLeapYear (y : Z) : bool :=
  (y mod 4 =? 0) && (negb (y mod 100 =? 0) || (y mod 400 =? 0)).

Definition daysInMonth (y m : Z) : Z :=
  match m with
  | 2 => if isLeapYear y then 29 else 28
  | 4 | 6 | 9 | 11 => 30
  | _ => 31
  end.


(** A month in [YYYY-MM] form: four digits of a year from 0001 on, a
    hyphen, and two digits of a month from 01 to 12. *)
Definition yearMonth (month : string) : option (Z * Z) :=
  match month with
  | String y1 (String y2 (String y3 (String y4
      (String "-" (String m1 (String m2 EmptyString)))))) =>
      match digit y1, digit y2, digit y3, digit y4, digit m1, digit m2 with
      | Some y1, Some y2, Some y3, Some y4, Some m1, Some m2 =>
          let y := 1000 * y1 + 100 * y2 + 10 * y3 + y4 in
          let m := 10 * m1 + m2 in
          if (1 <=? y) && (1 <=? m) && (m <=? 12) then Some (y, m) else None
      | _, _, _, _, _, _ => None
      end
  | _ => None
  end.

(** An activity that spans the end of January 2025, for the examples. *)
Definition workshop : Activity.t :=
  Activity.mk "2025-01-30" "2025-02-02" false "Workshop"
    "Other" "Unspecified" "Planned" "" "" "" [] 0.

(** * The remaining routes and the server as a whole *)

(** ** POST /api/login *)

(** [v === s] for a string literal [s]. *)
Definition strictEqStr (v : jsval) (s : string) : bool :=
  match v with
  | JStr s' => String.eqb s' s
  | _ => false
  end.

(** The answers of the login route: the status code, and the [success]
    and [message] members of the body. *)
Module Login.
Record reply : Type := mk {
    code : Z;
    success : bool;
    message : string
}.
End Login.

Definition login (username password : jsval) : Login.reply :=
  if strictEqStr username "staff" && strictEqStr password "staff" then
    Login.mk 200 true "Login successful"
  else Login.mk 401 false "Invalid username or password".

(** ** The writing routes in sequence *)

(** The requests that reach a route which writes to the collection. *)
Inductive write : Type :=
| PostActivities (now : Timestamp) (body : Body.t) (parts : list File.t)
| DeleteActivity (id : string).

Section Server.

Variable castObjectId : string -> option ObjectId.

Definition serve (w : write) (st : Store) : response * Store :=
  match w with
  | PostActivities now body parts => postActivities now body parts st
  | DeleteActivity id => deleteActivity castObjectId id st
  end.

(** The collection after a sequence of requests, served one by one. *)
Definition serveAll (ws : list write) (st : Store) : Store :=
  fold_left (fun st w => (serve w st).2) ws st.

End Server.

(** ** The earlier revision of the creation handler

    The schema of the earlier revision has neither [endDate] nor
    [isFullDay], and its handler reads neither from the body. *)
Module Earlier.

Record doc : Type := mkDoc {
    date : string;
    title : string;
    category : string;
    phase : string;
    status : string;
    startTime : string;
    endTime : string;
    notes : string;
    attachments : list Attachment.t;
    createdAt : Timestamp
}.

Inductive answer : Type :=
| Stored (id : ObjectId) (activity : doc)
| Refused (code : Z) (message : string).

(** [new Activity({...})] and the validation of [save], as for the current
    schema. *)
Definition newDoc (now : Timestamp)
    (date title category phase status startTime endTime notes : option string)
    (attachments : list Attachment.t) : option doc :=
  match date, title with
  | Some date, Some title =>
      if required date && required title then
        Some {| date := date;
                title := title;
                category := default "Other" category;
                phase := default "Unspecified" phase;
                status := default "Planned" status;
                startTime := default "" startTime;
                endTime := default "" endTime;
                notes := default "" notes;
                attachments := attachments;
                createdAt := now |}
      else None
  | _, _ => None
  end.

Definition createActivity (now : Timestamp) (body : Body.t)
    (files : list File.t) (st : gmap ObjectId doc)
    : answer * gmap ObjectId doc :=
  match truthy (Body.date body), truthy (Body.title body) with
  | Some _, Some _ =>
      let attachments := toAttachment now <$> files in
      match newDoc now (Body.date body) (Body.title body)
              (Body.category body) (Body.phase body) (Body.status body)
              (Body.startTime body) (Body.endTime body) (Body.notes body)
              attachments with
      | Some activity =>
          let id := fresh (dom st) in
          (Stored id activity, <[id := activity]> st)
      | None => (Refused 500 "Server error.", st)
      end
  | _, _ => (Refused 400 "Date and title are required.", st)
  end.

End Earlier.

(** ** Reference notions for the remaining properties *)

(** The document the creation handler builds from a request whose start
    date is [d] and whose title is [t]. *)
Definition storedActivity (now : Timestamp) (body : Body.t)
    (files : list File.t) (d t : string) : Activity.t :=
  let full := fullDayFlag (Body.isFullDay body) in
  {| Activity.date := d;
     Activity.endDate := storedEndDate d (Body.endDate body);
     Activity.isFullDay := full;
     Activity.title := t;
     Activity.category := default "Other" (Body.category body);
     Activity.phase := default "Unspecified" (Body.phase body);
     Activity.status := default "Planned" (Body.status body);
     Activity.startTime := if full then "" else default "" (Body.startTime body);
     Activity.endTime := if full then "" else default "" (Body.endTime body);
     Activity.notes := default "" (Body.notes body);
     Activity.attachments := toAttachment now <$> files;
     Activity.createdAt := now |}.

(** What the schema comments and the handler promise of a stored
    activity. *)
Definition wellFormed (a : Activity.t) : Prop :=
  Activity.date a <> ""
  /\ Activity.title a <> ""
  /\ String.leb (Activity.date a) (Activity.endDate a) = true
  /\ (Activity.isFullDay a = true ->
      Activity.startTime a = "" /\ Activity.endTime a = "")
  /\ (length (Activity.attachments a) <= 10)%nat
  /\ Forall (fun att => Attachment.url att
                        = "/uploads/" +:+ Attachment.fileName att)
       (Activity.attachments a).

(** Whether the character [c] occurs in [s]. *)
Fixpoint occurs (c : ascii) (s : string) : bool :=
  match s with
  | EmptyString => false
  | String c' rest => Ascii.eqb c' c || occurs c rest
  end.

(** A string of four digits, a hyphen and two digits, with the numbers the
    digits denote; neither number is restricted. *)
Definition monthDigits (month : string) : option (Z * Z) :=
  match month with
  | String y1 (String y2 (String y3 (String y4
      (String "-" (String m1 (String m2 EmptyString)))))) =>
      match digit y1, digit y2, digit y3, digit y4, digit m1, digit m2 with
      | Some y1, Some y2, Some y3, Some y4, Some m1, Some m2 =>
          Some (1000 * y1 + 100 * y2 + 10 * y3 + y4, 10 * m1 + m2)
      | _, _, _, _, _, _ => None
      end
  | _ => None
  end.

(** The year [new Date(y, ...)] takes for [y]. *)
Definition fullYear (y : Z) : Z :=
  if (0 <=? y) && (y <=? 99) then 1900 + y else y.

(** Time zones: UTC, a zone at a fixed offset, and a zone that goes from
    ten hours behind UTC to fourteen hours ahead when its 30 December 1994
    ends, as Pacific/Kiritimati did: its local 31 December 1994 does not
    exist. *)
Definition utc : TimeZone := mkZone (fun _ => 0) (fun _ => 0).

Definition fixedOffset (offset : Z) : TimeZone :=
  mkZone (fun _ => offset) (fun _ => offset).

Definition kiritimati : TimeZone :=
  mkZone (fun t => if t <? 9130 * msPerDay + 36000000
                   then -36000000 else 50400000)
         (fun t => if t <? 9131 * msPerDay then -36000000 else 50400000).

(** The local midnight that begins day number [day] is a time value and
    lies in that day: the zone does not skip it. *)
Definition keepsDay (tz : TimeZone) (day : Z) : Prop :=
  Z.abs (UTC tz (day * msPerDay)) <= 100000000 * msPerDay
  /\ Day (LocalTime tz (UTC tz (day * msPerDay))) = day.

(** The day number of the last day of month [m] of the year [y], as
    [new Date(y, m, 0)] counts it. *)
Definition lastDayOf (y m : Z) : Z := MakeDay (fullYear y) m 0.

(** Activities of one day, for the months the handler gets wrong. *)
Definition leapDay : Activity.t :=
  Activity.mk "0000-02-29" "0000-02-29" true "Leap day"
    "Other" "Unspecified" "Planned" "" "" "" [] 0.

Definition midDecember : Activity.t :=
  Activity.mk "1994-12-15" "1994-12-15" true "Inventory"
    "Other" "Unspecified" "Planned" "" "" "" [] 0.

(** Activities for the examples of the order of a listing. *)
Definition standup : Activity.t :=
  Activity.mk "2025-02-01" "2025-02-01" false "Stand-up"
    "Other" "Unspecified" "Planned" "10:00" "10:15" "" [] 1.

Definition retreat : Activity.t :=
  Activity.mk "2025-02-01" "2025-02-01" true "Retreat"
    "Other" "Unspecified" "Planned" "" "" "" [] 2.

(** * Properties *)

(** ** Three-way comparisons *)

Section comparison.
Context {K : Type} (cmp : K -> K -> comparison) `{!Comparison cmp}.

Lemma cmp_refl a : cmp a a = Eq.
Proof. by apply (cmp_eq cmp). Qed.

Lemma cmp_gt_lt a b : cmp a b = Gt <-> cmp b a = Lt.
Proof. rewrite (cmp_antisym cmp a b). destruct (cmp a b); naive_solver. Qed.

Lemma cmp_le_trans a b c : cmp a b <> Gt -> cmp b c <> Gt -> cmp a c <> Gt.
Proof.
  intros Hab Hbc Hac. apply cmp_gt_lt in Hac.
  destruct (cmp a b) eqn:Eab; [|clear Hab|done].
  - apply (cmp_eq cmp) in Eab as ->. apply cmp_gt_lt in Hac. done.
  - pose proof (cmp_lt_trans cmp _ _ _ Hac Eab) as Hcb.
    apply cmp_gt_lt in Hcb. done.
Qed.

Lemma cmp_le_total a b : cmp a b <> Gt \/ cmp b a <> Gt.
Proof. rewrite (cmp_antisym cmp a b). destruct (cmp a b); naive_solver. Qed.
End comparison.

#[global] Instance Z_comparison : Comparison Z.compare.
Proof.
  split.
  - apply Z.compare_eq_iff.
  - intros a b. apply Z.compare_antisym.
  - intros a b c. rewrite !Z.compare_lt_iff. lia.
Qed.

#[global] Instance ascii_comparison : Comparison Ascii.compare.
Proof.
  split.
  - intros a b. split; [apply Ascii.compare_eq_iff|].
    intros ->. apply N.compare_refl.
  - intros a b. apply Ascii.compare_antisym.
  - intros a b c. unfold Ascii.compare. rewrite !N.compare_lt_iff. lia.
Qed.

#[global] Instance string_comparison : Comparison String.compare.
Proof.
  split.
  - intros a b. split; [apply String.compare_eq_iff|].
    intros ->. induction b as [|c b IH]; simpl; [done|].
    by rewrite (cmp_refl Ascii.compare).
  - intros a b. apply String.compare_antisym.
  - intros a. induction a as [|x a IH]; intros [|y b] [|z c]; simpl; try done.
    destruct (Ascii.compare x y) eqn:Exy; try done.
    + apply (cmp_eq Ascii.compare) in Exy as ->.
      destruct (Ascii.compare y z); eauto.
    + destruct (Ascii.compare y z) eqn:Eyz; try done.
      * apply (cmp_eq Ascii.compare) in Eyz as <-. by rewrite Exy.
      * by rewrite (cmp_lt_trans Ascii.compare _ _ _ Exy Eyz).
Qed.

(** Comparing a first key, then a second one. *)
#[global] Instance thenBy_comparison {K1 K2 : Type}
    (cmp1 : K1 -> K1 -> comparison) (cmp2 : K2 -> K2 -> comparison)
    `{!Comparison cmp1, !Comparison cmp2} :
  Comparison (fun a b : K1 * K2 => thenBy (cmp1 a.1 b.1) (cmp2 a.2 b.2)).
Proof.
  split.
  - intros [a1 a2] [b1 b2]; simpl. split.
    + destruct (cmp1 a1 b1) eqn:E1; simpl; try done.
      intros E2. apply (cmp_eq cmp1) in E1. apply (cmp_eq cmp2) in E2.
      congruence.
    + intros [= -> ->]. by rewrite (cmp_refl cmp1), (cmp_refl cmp2).
  - intros [a1 a2] [b1 b2]; simpl.
    rewrite (cmp_antisym cmp1 a1 b1), (cmp_antisym cmp2 a2 b2).
    by destruct (cmp1 a1 b1).
  - intros [a1 a2] [b1 b2] [c1 c2]; simpl.
    destruct (cmp1 a1 b1) eqn:E1; simpl; try done.
    + apply (cmp_eq cmp1) in E1 as ->.
      destruct (cmp1 b1 c1); simpl; try done.
      apply (cmp_lt_trans cmp2).
    + destruct (cmp1 b1 c1) eqn:E2; simpl; try done.
      * apply (cmp_eq cmp1) in E2 as <-. by rewrite E1.
      * by rewrite (cmp_lt_trans cmp1 _ _ _ E1 E2).
Qed.

(** ** The order of the listings *)

#[global] Instance compareKey_comparison : Comparison compareKey.
Proof.
  exact (thenBy_comparison String.compare
           (fun a b : string * Timestamp =>
              thenBy (String.compare a.1 b.1) (Z.compare a.2 b.2))).
Qed.

Lemma compareActivity_key a b :
  compareActivity a b = compareKey (sortKey a) (sortKey b).
Proof. reflexivity. Qed.

#[global] Instance sortLe_trans : Transitive sortLe.
Proof.
  intros x y z. unfold sortLe. rewrite !compareActivity_key.
  apply (cmp_le_trans compareKey).
Qed.

#[global] Instance sortLe_total : Total sortLe.
Proof.
  intros x y. unfold sortLe. rewrite !compareActivity_key.
  apply (cmp_le_total compareKey).
Qed.

Lemma sortDocs_sorted l : StronglySorted sortLe (sortDocs l).
Proof. apply StronglySorted_merge_sort; apply _. Qed.

Lemma sortDocs_perm l : sortDocs l ≡ₚ l.
Proof. apply merge_sort_Permutation. Qed.

Lemma elem_of_sortDocs x l : x ∈ sortDocs l <-> x ∈ l.
Proof. by rewrite sortDocs_perm. Qed.

Lemma elem_of_find filter st id a :
  (id, a) ∈ find filter st <-> st !! id = Some a /\ filter a = true.
Proof.
  unfold find. rewrite list_elem_of_In, filter_In, <- list_elem_of_In.
  by rewrite elem_of_map_to_list.
Qed.

Lemma elem_of_sorted_find filter st id a :
  (id, a) ∈ sortDocs (find filter st) <-> st !! id = Some a /\ filter a = true.
Proof. by rewrite elem_of_sortDocs, elem_of_find. Qed.

(** ** Strings *)

Lemma truthy_Some v s : truthy v = Some s <-> v = Some s /\ s <> "".
Proof. destruct v as [[|c v]|]; simpl; intuition congruence. Qed.

Lemma truthy_None v : truthy v = None <-> v = None \/ v = Some "".
Proof. destruct v as [[|c v]|]; simpl; intuition congruence. Qed.

Lemma required_true s : s <> "" -> required s = true.
Proof. intros Hs. unfold required. by apply negb_true_iff, String.eqb_neq. Qed.

Lemma ltb_false_leb a b : String.ltb a b = false -> String.leb b a = true.
Proof.
  unfold String.ltb, String.leb. rewrite (cmp_antisym String.compare a b).
  by destruct (String.compare a b).
Qed.

Lemma ltb_true_leb a b : String.ltb a b = true -> String.leb b a = false.
Proof.
  unfold String.ltb, String.leb. rewrite (cmp_antisym String.compare a b).
  by destruct (String.compare a b).
Qed.

Lemma leb_refl a : String.leb a a = true.
Proof. unfold String.leb. by rewrite (cmp_refl String.compare). Qed.

(** ** Creation *)

Lemma not_missing v : ~ missing v <-> exists s, v = Some s /\ s <> "".
Proof.
  unfold missing. destruct v as [s|].
  - split.
    + intros H. exists s. split; [done|]. intros ->. tauto.
    + intros (s' & [= <-] & Hs) [|[= ->]]; done.
  - split; [tauto|]. by intros (s & ? & _).
Qed.

(** The two outcomes of the check [if (!date || !title)]. *)
Lemma body_checked body :
  (missing (Body.date body) \/ missing (Body.title body))
  \/ exists d t,
       Body.date body = Some d /\ d <> ""
       /\ Body.title body = Some t /\ t <> "".
Proof.
  assert (Decision (missing (Body.date body))) as [Hd|Hd]
    by (unfold missing; apply _); [by left; left|].
  assert (Decision (missing (Body.title body))) as [Ht|Ht]
    by (unfold missing; apply _); [by left; right|].
  apply not_missing in Hd as (d & Hdate & Hd).
  apply not_missing in Ht as (t & Htitle & Ht).
  right. by exists d, t.
Qed.

Lemma storedEndDate_ge d endDate : String.leb d (storedEndDate d endDate) = true.
Proof.
  unfold storedEndDate. destruct (truthy endDate) as [e|]; [|apply leb_refl].
  destruct (String.ltb e d) eqn:E; [apply leb_refl|by apply ltb_false_leb].
Qed.

Lemma storedEndDate_nonempty d endDate : d <> "" -> storedEndDate d endDate <> "".
Proof.
  unfold storedEndDate. intros Hd.
  destruct (truthy endDate) as [e|] eqn:E; [|done].
  apply truthy_Some in E as [_ He]. by destruct (String.ltb e d).
Qed.

(** What the handler does on a request that passes its check. *)
Lemma createActivity_valid now body files st d t :
  Body.date body = Some d -> d <> "" ->
  Body.title body = Some t -> t <> "" ->
  let full := fullDayFlag (Body.isFullDay body) in
  let a :=
    {| Activity.date := d;
       Activity.endDate := storedEndDate d (Body.endDate body);
       Activity.isFullDay := full;
       Activity.title := t;
       Activity.category := default "Other" (Body.category body);
       Activity.phase := default "Unspecified" (Body.phase body);
       Activity.status := default "Planned" (Body.status body);
       Activity.startTime := if full then "" else default "" (Body.startTime body);
       Activity.endTime := if full then "" else default "" (Body.endTime body);
       Activity.notes := default "" (Body.notes body);
       Activity.attachments := toAttachment now <$> files;
       Activity.createdAt := now |} in
  createActivity now body files st
  = (Created (fresh (dom st)) a, <[fresh (dom st) := a]> st).
Proof.
  intros Hdate Hd Htitle Ht full a. unfold createActivity.
  assert (truthy (Body.date body) = Some d) as -> by by apply truthy_Some.
  assert (truthy (Body.title body) = Some t) as -> by by apply truthy_Some.
  fold full. rewrite Hdate, Htitle.
  pose proof (storedEndDate_nonempty d (Body.endDate body) Hd) as He.
  assert ((if js_lt (if truthy (Body.endDate body) is Some _
                     then Body.endDate body else Some d) (Some d)
           then Some d
           else if truthy (Body.endDate body) is Some _
                then Body.endDate body else Some d)
          = Some (storedEndDate d (Body.endDate body))) as ->.
  { unfold storedEndDate.
    destruct (truthy (Body.endDate body)) as [e|] eqn:E; simpl.
    - apply truthy_Some in E as [-> _]. simpl. by destruct (String.ltb e d).
    - by destruct (String.ltb d d). }
  unfold newActivity.
  rewrite (required_true d), (required_true t), (required_true _ He) by done.
  simpl. subst a. by destruct full.
Qed.

Lemma createActivity_invalid now body files st :
  missing (Body.date body) \/ missing (Body.title body) ->
  createActivity now body files st
  = (Failure 400 "Date and title are required.", st).
Proof.
  unfold missing, createActivity. rewrite <- !truthy_None.
  intros [-> | ->]; [done|]. by destruct (truthy (Body.date body)).
Qed.

Lemma fresh_id_unused (st : Store) : st !! fresh (dom st) = None.
Proof. apply not_elem_of_dom, is_fresh. Qed.

(** C1: a creation request with a non-empty start date and title is
    stored; when [endDate] is absent the stored end date is the start
    date, when the supplied [endDate] is below the start date it is
    replaced by the start date, a supplied non-empty [endDate] that is not
    below is kept, and in every case the stored end date is at or after
    the stored start date in the order of strings. *)
Theorem endDate_normalised now body files st d t :
  Body.date body = Some d -> d <> "" ->
  Body.title body = Some t -> t <> "" ->
  exists id a,
    createActivity now body files st = (Created id a, <[id := a]> st)
    /\ st !! id = None
    /\ Activity.date a = d
    /\ (Body.endDate body = None -> Activity.endDate a = d)
    /\ (forall e, Body.endDate body = Some e -> String.ltb e d = true ->
          Activity.endDate a = d)
    /\ (forall e, Body.endDate body = Some e -> e <> "" ->
          String.ltb e d = false -> Activity.endDate a = e)
    /\ String.leb (Activity.date a) (Activity.endDate a) = true.
Proof.
  intros Hdate Hd Htitle Ht.
  eexists _, _. split; [by apply createActivity_valid|].
  split; [apply fresh_id_unused|]. simpl.
  split; [done|]. unfold storedEndDate. repeat split.
  - by intros ->.
  - intros e -> He. destruct (truthy (Some e)) as [e'|] eqn:E; [|done].
    apply truthy_Some in E as [[= <-] _]. by rewrite He.
  - intros e -> Hne He.
    assert (truthy (Some e) = Some e) as -> by by apply truthy_Some.
    by rewrite He.
  - apply storedEndDate_ge.
Qed.

Lemma endDate_normalised_witness :
  exists id a,
    createActivity 0
      (Body.mk (Some "2025-03-10") (Some "2025-03-05") (Some "X")
         None None None None None None JUndefined) [] ∅
    = (Created id a, <[id := a]> ∅)
    /\ Activity.endDate a = "2025-03-10".
Proof.
  destruct (endDate_normalised 0
              (Body.mk (Some "2025-03-10") (Some "2025-03-05") (Some "X")
                 None None None None None None JUndefined) [] ∅
              "2025-03-10" "X")
    as (id & a & Hrun & _ & _ & _ & Hlt & _); [reflexivity|discriminate|reflexivity|discriminate|].
  exists id, a. split; [exact Hrun|].
  apply (Hlt "2025-03-05"); reflexivity.
Defined.

(** C5: when [isFullDay] resolves to true, the stored activity has empty
    [startTime] and [endTime], whatever times the request carried. *)
Theorem fullDay_clears_times now body files st d t :
  Body.date body = Some d -> d <> "" ->
  Body.title body = Some t -> t <> "" ->
  fullDayFlag (Body.isFullDay body) = true ->
  exists id a,
    createActivity now body files st = (Created id a, <[id := a]> st)
    /\ Activity.isFullDay a = true
    /\ Activity.startTime a = ""
    /\ Activity.endTime a = "".
Proof.
  intros Hdate Hd Htitle Ht Hfull.
  eexists _, _. split; [by apply createActivity_valid|].
  simpl. by rewrite Hfull.
Qed.

Lemma fullDay_clears_times_witness :
  exists id a,
    createActivity 0
      (Body.mk (Some "2025-03-10") None (Some "Retreat")
         None None None (Some "09:00") (Some "17:30") None (JStr "on")) [] ∅
    = (Created id a, <[id := a]> ∅)
    /\ Activity.isFullDay a = true
    /\ Activity.startTime a = ""
    /\ Activity.endTime a = "".
Proof.
  apply (fullDay_clears_times 0
           (Body.mk (Some "2025-03-10") None (Some "Retreat")
              None None None (Some "09:00") (Some "17:30") None (JStr "on"))
           [] ∅ "2025-03-10" "Retreat");
    [reflexivity|discriminate|reflexivity|discriminate|reflexivity].
Defined.

(** C6: creation answers with a validation error exactly when the start
    date or the title is missing or empty, and then writes nothing; every
    other request is stored, each omitted optional field taking its
    default: category "Other", phase "Unspecified", status "Planned",
    notes "". *)
Theorem creation_validation now body files st :
  (ValidationError (createActivity now body files st).1
   <-> missing (Body.date body) \/ missing (Body.title body))
  /\ (ValidationError (createActivity now body files st).1 ->
      (createActivity now body files st).2 = st)
  /\ (~ (missing (Body.date body) \/ missing (Body.title body)) ->
      exists id a,
        createActivity now body files st = (Created id a, <[id := a]> st)
        /\ st !! id = None
        /\ Activity.category a = default "Other" (Body.category body)
        /\ Activity.phase a = default "Unspecified" (Body.phase body)
        /\ Activity.status a = default "Planned" (Body.status body)
        /\ Activity.notes a = default "" (Body.notes body)).
Proof.
  destruct (body_checked body) as [Hmiss|(d & t & Hdate & Hd & Htitle & Ht)].
  - rewrite (createActivity_invalid _ _ _ _ Hmiss). simpl.
    split; [|split; [done|tauto]].
    split; [done|]. intros _. by eexists.
  - assert (~ (missing (Body.date body) \/ missing (Body.title body))) as Hok.
    { rewrite Hdate, Htitle. unfold missing. intuition congruence. }
    rewrite (createActivity_valid _ _ _ _ d t) by done. simpl.
    split; [|split].
    + split; [|tauto]. by intros (message & ?).
    + by intros (message & ?).
    + intros _. eexists _, _. split; [done|].
      split; [apply fresh_id_unused|done].
Qed.

(** C8: creation does not look at the format of the start date: every
    non-empty string is accepted as a start date (with a non-empty title)
    and stored unchanged, and the stored end date is at or after it in
    the order of strings. *)
Theorem any_start_date_accepted now body files st d t :
  Body.date body = Some d -> d <> "" ->
  Body.title body = Some t -> t <> "" ->
  exists id a,
    createActivity now body files st = (Created id a, <[id := a]> st)
    /\ st !! id = None
    /\ Activity.date a = d
    /\ String.leb (Activity.date a) (Activity.endDate a) = true.
Proof.
  intros Hdate Hd Htitle Ht.
  eexists _, _. split; [by apply createActivity_valid|].
  split; [apply fresh_id_unused|]. simpl. split; [done|].
  apply storedEndDate_ge.
Qed.

Lemma any_start_date_accepted_witness :
  exists id a,
    createActivity 0
      (Body.mk (Some "next tuesday") (Some "31/12/2025") (Some "X")
         None None None None None None JUndefined) [] ∅
    = (Created id a, <[id := a]> ∅)
    /\ (∅ : Store) !! id = None
    /\ Activity.date a = "next tuesday"
    /\ String.leb (Activity.date a) (Activity.endDate a) = true.
Proof.
  apply (any_start_date_accepted 0
           (Body.mk (Some "next tuesday") (Some "31/12/2025") (Some "X")
              None None None None None None JUndefined)
           [] ∅ "next tuesday" "X");
    [reflexivity|discriminate|reflexivity|discriminate].
Defined.

(** C9: [isFullDay] resolves to true for the boolean true and the strings
    "true" and "on", and for nothing else: "1", "yes", "True", the number
    1 and an absent field resolve to false. *)
Theorem fullDayFlag_true_iff :
  (forall v, fullDayFlag v = true
             <-> v = JBool true \/ v = JStr "true" \/ v = JStr "on")
  /\ fullDayFlag (JStr "1") = false
  /\ fullDayFlag (JStr "yes") = false
  /\ fullDayFlag (JStr "True") = false
  /\ fullDayFlag (JNum 1) = false
  /\ fullDayFlag JUndefined = false.
Proof.
  split; [|done]. intros v. destruct v as [| |b|n|s|]; simpl;
    try solve [intuition congruence].
  rewrite orb_true_iff, !String.eqb_eq. intuition congruence.
Qed.

(** ** Uploads *)

Lemma uploadArray_inr name maxCount parts files :
  uploadArray name maxCount parts = inr files ->
  files = parts /\ (length parts <= maxCount)%nat.
Proof.
  revert maxCount files.
  induction parts as [|file rest IH]; intros maxCount files; simpl.
  - intros [= <-]. split; [done|lia].
  - destruct (String.eqb (File.fieldname file) name); [|done].
    destruct maxCount as [|filesLeft]; [done|].
    destruct (uploadArray name filesLeft rest) as [err|files'] eqn:E; [done|].
    intros [= <-]. destruct (IH _ _ E) as [-> Hlen]. split; [done|lia].
Qed.

Lemma uploadArray_accepts name maxCount parts :
  Forall (fun file => File.fieldname file = name) parts ->
  (length parts <= maxCount)%nat ->
  uploadArray name maxCount parts = inr parts.
Proof.
  intros Hname. revert maxCount.
  induction Hname as [|file rest Hfile _ IH]; intros maxCount Hlen; simpl in *.
  - done.
  - apply String.eqb_eq in Hfile as ->.
    destruct maxCount as [|filesLeft]; [lia|].
    rewrite IH by lia. done.
Qed.

(** The handler either leaves the collection as it is or adds one document
    under an unused identifier, with one attachment per file. *)
Lemma createActivity_cases now body files st :
  (createActivity now body files st).2 = st
  \/ exists id a,
       createActivity now body files st = (Created id a, <[id := a]> st)
       /\ st !! id = None
       /\ Activity.attachments a = toAttachment now <$> files.
Proof.
  destruct (body_checked body) as [Hmiss|(d & t & Hdate & Hd & Htitle & Ht)].
  - left. by rewrite createActivity_invalid.
  - right. eexists _, _. split; [by apply (createActivity_valid _ _ _ _ d t)|].
    split; [apply fresh_id_unused|done].
Qed.

Lemma createActivity_Created now body files st id a st' :
  createActivity now body files st = (Created id a, st') ->
  st' = <[id := a]> st /\ st !! id = None
  /\ Activity.attachments a = toAttachment now <$> files.
Proof.
  intros Hrun.
  destruct (body_checked body) as [Hmiss|(d & t & Hdate & Hd & Htitle & Ht)].
  - by rewrite createActivity_invalid in Hrun.
  - rewrite (createActivity_valid _ _ _ _ d t) in Hrun by done.
    injection Hrun as <- <- <-.
    split; [done|]. split; [apply fresh_id_unused|done].
Qed.

(** C10: the creation route takes the files of the field "files", up to
    ten of them; a request with more than ten file parts is turned down by
    the upload middleware, the handler does not run and nothing is stored;
    a stored activity has at most ten attachments, and so has every
    activity of a collection built through this route. *)
Theorem upload_limit now body parts st :
  (Forall (fun file => File.fieldname file = "files") parts ->
   (length parts <= 10)%nat ->
   postActivities now body parts st = createActivity now body parts st)
  /\ ((10 < length parts)%nat ->
      exists err, postActivities now body parts st = (Unhandled err, st))
  /\ (forall id a st',
        postActivities now body parts st = (Created id a, st') ->
        st' = <[id := a]> st
        /\ (length (Activity.attachments a) <= 10)%nat)
  /\ ((forall id a, st !! id = Some a ->
         (length (Activity.attachments a) <= 10)%nat) ->
      forall id a, (postActivities now body parts st).2 !! id = Some a ->
         (length (Activity.attachments a) <= 10)%nat).
Proof.
  unfold postActivities.
  destruct (uploadArray "files" 10 parts) as [err|files] eqn:Hup.
  - split; [|split; [|split]].
    + intros Hname Hlen. by rewrite uploadArray_accepts in Hup.
    + intros _. by exists err.
    + done.
    + done.
  - apply uploadArray_inr in Hup as [-> Hlen].
    split; [done|]. split; [lia|].
    assert (forall id a st',
              createActivity now body parts st = (Created id a, st') ->
              st' = <[id := a]> st
              /\ (length (Activity.attachments a) <= 10)%nat) as Hnew.
    { intros id a st' Hrun.
      apply createActivity_Created in Hrun as (-> & _ & ->).
      by rewrite length_fmap. }
    split; [done|].
    intros Hst id a.
    destruct (createActivity_cases now body parts st)
      as [->|(id' & a' & Hrun & _)]; [apply Hst|].
    rewrite Hrun. simpl. intros [[<- <-]|[_ Hold]]%lookup_insert_Some.
    + by apply (Hnew _ _ _ Hrun).
    + by apply (Hst id).
Qed.

(** ** Deletion *)

(** C7: deleting an identifier under which nothing is stored succeeds and
    leaves the collection as it is; two deletions of the same identifier
    both succeed and the second one changes nothing. *)
Theorem delete_idempotent (castObjectId : string -> option ObjectId)
    id oid (st : Store) :
  castObjectId id = Some oid ->
  (st !! oid = None -> deleteActivity castObjectId id st = (Success, st))
  /\ (deleteActivity castObjectId id st).1 = Success
  /\ deleteActivity castObjectId id (deleteActivity castObjectId id st).2
     = (Success, (deleteActivity castObjectId id st).2).
Proof.
  intros Hcast. unfold deleteActivity. rewrite Hcast. simpl.
  split; [|split].
  - intros Habsent. by rewrite delete_id.
  - done.
  - by rewrite delete_delete_eq.
Qed.

Lemma delete_idempotent_witness :
  deleteActivity (fun id => if String.eqb id "65a1f0c2e4b09d3a7c5e1b42"
                            then Some 7%N else None)
    "65a1f0c2e4b09d3a7c5e1b42" ∅
  = (Success, ∅).
Proof.
  apply (delete_idempotent
           (fun id => if String.eqb id "65a1f0c2e4b09d3a7c5e1b42"
                      then Some 7%N else None)
           "65a1f0c2e4b09d3a7c5e1b42" 7%N ∅);
    [reflexivity|apply lookup_empty].
Defined.

(** ** Queries *)

(** C2: the day query without a date is a validation error; for a date [d]
    it lists a stored activity exactly when its start date is at or before
    [d] and its end date at or after [d], so an activity that spans [d] is
    listed and one whose interval does not contain [d] is not. *)
Theorem day_query_contains (st : Store) d :
  d <> "" ->
  ValidationError (dayQuery None st)
  /\ exists l,
       dayQuery (Some d) st = Listing l
       /\ forall id a,
            (id, a) ∈ l
            <-> st !! id = Some a
                /\ String.leb (Activity.date a) d = true
                /\ String.leb d (Activity.endDate a) = true.
Proof.
  intros Hd. split; [by eexists|].
  unfold dayQuery.
  assert (truthy (Some d) = Some d) as -> by by apply truthy_Some.
  eexists. split; [done|]. intros id a.
  rewrite elem_of_sorted_find. unfold lte, gte.
  by rewrite andb_true_iff.
Qed.

Lemma day_query_contains_witness :
  exists l,
    dayQuery (Some "2025-02-01")
      {[ 7%N := workshop ]}
    = Listing l
    /\ (7%N, workshop) ∈ l.
Proof.
  destruct (day_query_contains
              {[ 7%N := workshop ]}
              "2025-02-01") as [_ (l & Hrun & Hl)]; [discriminate|].
  exists l. split; [exact Hrun|].
  apply Hl. split; [apply lookup_singleton_eq|]. split; reflexivity.
Defined.

(** ** The calendar *)

Ltac div_lia := Z.to_euclidean_division_equations; lia.

Lemma DayFromYear_step y : 365 <= DayFromYear (y + 1) - DayFromYear y <= 366.
Proof. unfold DayFromYear. div_lia. Qed.

Lemma YearFromDay_spec day :
  DayFromYear (YearFromDay day) <= day < DayFromYear (YearFromDay day + 1).
Proof.
  unfold YearFromDay.
  set (y := 1970 + day * 400 / 146097).
  destruct (Z.leb_spec (DayFromYear (y + 1)) day) as [H1|H1].
  - split; [done|]. unfold DayFromYear in *. subst y. div_lia.
  - destruct (Z.leb_spec (DayFromYear y) day) as [H2|H2].
    + done.
    + replace (y - 1 + 1) with y by lia. split; [|done].
      unfold DayFromYear in *. subst y. div_lia.
Qed.

Lemma DayFromYear_mono y1 y2 : y1 <= y2 -> DayFromYear y1 <= DayFromYear y2.
Proof. unfold DayFromYear. div_lia. Qed.

Lemma YearFromDay_unique y day :
  DayFromYear y <= day < DayFromYear (y + 1) -> YearFromDay day = y.
Proof.
  intros Hy. pose proof (YearFromDay_spec day) as Hspec.
  destruct (Z.lt_trichotomy (YearFromDay day) y) as [Hlt|[Heq|Hgt]]; [|done|].
  - pose proof (DayFromYear_mono (YearFromDay day + 1) y). lia.
  - pose proof (DayFromYear_mono (y + 1) (YearFromDay day)). lia.
Qed.

Lemma InLeapYear_spec y : InLeapYear y = if isLeapYear y then 1 else 0.
Proof.
  unfold InLeapYear, DaysInYear, DayFromYear, isLeapYear.
  destruct (Z.eqb_spec (y mod 4) 0), (Z.eqb_spec (y mod 100) 0),
    (Z.eqb_spec (y mod 400) 0); simpl; div_lia.
Qed.

Lemma DayWithinYearOfMonth_bounds leap mn :
  0 <= leap <= 1 -> 0 <= DayWithinYearOfMonth leap mn <= 335.
Proof.
  intros Hleap. unfold DayWithinYearOfMonth.
  destruct mn as [|p|p]; try lia.
  do 4 (try destruct p as [p|p|]; try lia).
Qed.

Lemma DateFromDay_in_year y d :
  0 <= d < DaysInYear y ->
  DateFromDay (DayFromYear y + d)
  = d - DayWithinYearOfMonth (InLeapYear y)
          (let leap := InLeapYear y in
           if d <? 31 then 0
           else if d <? 59 + leap then 1
           else if d <? 90 + leap then 2
           else if d <? 120 + leap then 3
           else if d <? 151 + leap then 4
           else if d <? 181 + leap then 5
           else if d <? 212 + leap then 6
           else if d <? 243 + leap then 7
           else if d <? 273 + leap then 8
           else if d <? 304 + leap then 9
           else if d <? 334 + leap then 10
           else 11) + 1.
Proof.
  intros Hd. unfold DateFromDay, MonthFromDay.
  rewrite (YearFromDay_unique y) by (unfold DaysInYear in Hd; lia).
  replace (DayFromYear y + d - DayFromYear y) with d by lia. done.
Qed.

Lemma MakeDay_range y m :
  -200000 <= y <= 200000 -> 1 <= m <= 12 ->
  Z.abs (MakeDay y m 0) <= 100000000.
Proof.
  intros Hy Hm. unfold MakeDay.
  assert (-200000 <= y + m / 12 <= 200001) as Hym by div_lia.
  set (ym := y + m / 12) in *. set (mn := m mod 12).
  assert (0 <= InLeapYear ym <= 1) as Hleap
    by (rewrite InLeapYear_spec; destruct (isLeapYear ym); lia).
  pose proof (DayWithinYearOfMonth_bounds _ mn Hleap) as Hb.
  clearbody ym mn. unfold DayFromYear. div_lia.
Qed.

(** Day 0 of the month after month [m] is the last day of month [m]. *)
Lemma DateFromDay_lastDay y m :
  1 <= m <= 12 -> DateFromDay (MakeDay y m 0) = daysInMonth y m.
Proof.
  intros Hm.
  assert (DaysInYear y = 365 + InLeapYear y) as Hdays by (unfold InLeapYear; lia).
  assert (DaysInYear (y + 1) = 365 + InLeapYear (y + 1)) as Hdays'
    by (unfold InLeapYear; lia).
  pose proof (InLeapYear_spec y) as Hleap.
  assert (m = 1 \/ m = 2 \/ m = 3 \/ m = 4 \/ m = 5 \/ m = 6 \/ m = 7
          \/ m = 8 \/ m = 9 \/ m = 10 \/ m = 11 \/ m = 12) as Hcases by lia.
  unfold daysInMonth.
  destruct Hcases as [->|[->|[->|[->|[->|[->|[->|[->|[->|[->|[->| ->]]]]]]]]]]];
    unfold MakeDay;
    change (12 / 12) with 1; change (12 mod 12) with 0;
    try (rewrite Z.div_small, Z.mod_small by lia); rewrite ?Z.add_0_r;
    cbn [DayWithinYearOfMonth].
  all: try (match goal with
       | |- DateFromDay (DayFromYear ?y' + ?c - 1) = _ =>
           replace (DayFromYear y' + c - 1) with (DayFromYear y' + (c - 1)) by lia
       end;
       rewrite DateFromDay_in_year
         by (rewrite Hdays, Hleap; destruct (isLeapYear y); lia);
       rewrite Hleap; destruct (isLeapYear y); reflexivity).
  (* December: the day before the first day of the next year *)
  replace (DayFromYear (y + 1) - 1)
    with (DayFromYear y + (DaysInYear y - 1)) by (unfold DaysInYear; lia).
  rewrite DateFromDay_in_year
    by (rewrite Hdays, Hleap; destruct (isLeapYear y); lia).
  rewrite Hdays, Hleap. destruct (isLeapYear y); reflexivity.
Qed.

Lemma isLeapYear_century y :
  1 <= y <= 99 -> isLeapYear (1900 + y) = isLeapYear y.
Proof.
  intros Hy. unfold isLeapYear.
  destruct (Z.eqb_spec ((1900 + y) mod 4) 0), (Z.eqb_spec (y mod 4) 0),
    (Z.eqb_spec ((1900 + y) mod 100) 0), (Z.eqb_spec (y mod 100) 0),
    (Z.eqb_spec ((1900 + y) mod 400) 0), (Z.eqb_spec (y mod 400) 0);
    simpl; try reflexivity; div_lia.
Qed.

(** In a zone that keeps the day, [getDate] is the date of that day. *)
Lemma getDateOf_keepsDay tz y m :
  keepsDay tz (lastDayOf y m) ->
  getDateOf tz (Some y) (Some m) 0 = Some (DateFromDay (lastDayOf y m)).
Proof.
  intros [Hrange Hday]. unfold getDateOf. fold (fullYear y). cbv zeta.
  fold (lastDayOf y m). unfold TimeClip.
  by rewrite (proj2 (Z.leb_le _ _) Hrange), Hday.
Qed.

Lemma fixedOffset_keepsDay offset day :
  Z.abs offset <= msPerDay -> Z.abs day < 100000000 ->
  keepsDay (fixedOffset offset) day.
Proof.
  unfold keepsDay, UTC, LocalTime, Day, msPerDay. simpl. intros Hoffset Hday.
  split; [lia|].
  replace (day * 86400000 - offset + offset) with (day * 86400000) by lia.
  by rewrite Z.div_mul.
Qed.

Lemma utc_keepsDay day : Z.abs day < 100000000 -> keepsDay utc day.
Proof. intros Hday. by apply (fixedOffset_keepsDay 0). Qed.

Lemma daysInMonth_fullYear y m :
  1 <= y <= 9999 -> daysInMonth (fullYear y) m = daysInMonth y m.
Proof.
  intros Hy. unfold fullYear.
  destruct (Z.leb_spec 0 y), (Z.leb_spec y 99); simpl; try done.
  unfold daysInMonth. by rewrite isLeapYear_century by lia.
Qed.

Lemma getDateOf_lastDay tz y m :
  1 <= y <= 9999 -> 1 <= m <= 12 ->
  keepsDay tz (lastDayOf y m) ->
  getDateOf tz (Some y) (Some m) 0 = Some (daysInMonth y m).
Proof.
  intros Hy Hm Hkeeps. rewrite getDateOf_keepsDay by done.
  unfold lastDayOf. by rewrite DateFromDay_lastDay, daysInMonth_fullYear.
Qed.

Lemma digit_Some c n :
  digit c = Some n ->
  0 <= n <= 9 /\ Ascii.eqb c "-" = false
  /\ forall s, parseInt (Some (String c s)) = digits None (String c s).
Proof.
  intros Hc.
  destruct c as [[] [] [] [] [] [] [] []]; vm_compute in Hc; try discriminate;
    injection Hc as <-; (split; [lia|]); split; reflexivity.
Qed.

Lemma yearMonth_Some month y m :
  yearMonth month = Some (y, m) ->
  1 <= y <= 9999 /\ 1 <= m <= 12
  /\ split "-" month = [String.substring 0 4 month; String.substring 5 2 month]
  /\ (forall rest,
        String.substring 0 4 month +:+ "-" +:+ String.substring 5 2 month
          +:+ rest = month +:+ rest)
  /\ parseInt (Some (String.substring 0 4 month)) = Some y
  /\ parseInt (Some (String.substring 5 2 month)) = Some m.
Proof.
  unfold yearMonth.
  destruct month as [|y1 [|y2 [|y3 [|y4 [|h [|m1 [|m2 [|]]]]]]]]; try done;
    (destruct (Ascii.eqb_spec h "-") as [->|Hh];
     [|destruct h as [[] [] [] [] [] [] [] []]; done]); try done.
  destruct (digit y1) as [a|] eqn:E1; [|done].
  destruct (digit y2) as [b|] eqn:E2; [|done].
  destruct (digit y3) as [c|] eqn:E3; [|done].
  destruct (digit y4) as [d|] eqn:E4; [|done].
  destruct (digit m1) as [e|] eqn:E5; [|done].
  destruct (digit m2) as [f|] eqn:E6; [|done].
  pose proof (digit_Some _ _ E1) as (Ha & Hy1 & Hp1).
  pose proof (digit_Some _ _ E2) as (Hb & Hy2 & _).
  pose proof (digit_Some _ _ E3) as (Hc & Hy3 & _).
  pose proof (digit_Some _ _ E4) as (Hd & Hy4 & _).
  pose proof (digit_Some _ _ E5) as (He & Hm1 & Hp5).
  pose proof (digit_Some _ _ E6) as (Hf & Hm2 & _).
  cbv zeta.
  destruct (Z.leb_spec 1 (1000 * a + 100 * b + 10 * c + d)); [|done].
  destruct (Z.leb_spec 1 (10 * e + f)); [|done].
  destruct (Z.leb_spec (10 * e + f) 12); [|done].
  simpl. intros [= <- <-].
  split; [lia|]. split; [lia|].
  rewrite Hy1, Hy2, Hy3, Hy4, Hm1, Hm2, Hp1, Hp5. simpl.
  rewrite E1, E2, E3, E4, E5, E6. simpl.
  repeat split; f_equal; lia.
Qed.

Lemma monthBounds_yearMonth tz month y m :
  yearMonth month = Some (y, m) ->
  keepsDay tz (lastDayOf y m) ->
  monthBounds tz month
  = (month +:+ "-01", month +:+ "-" +:+ pad2 (Some (daysInMonth y m))).
Proof.
  intros (Hy & Hm & Hsplit & Happ & Hyear & Hmonth)%yearMonth_Some Hkeeps.
  unfold monthBounds. rewrite Hsplit. simpl.
  rewrite Hyear, Hmonth, getDateOf_lastDay by done.
  by rewrite !Happ.
Qed.

(** [0000] is read as a year of the twentieth century, 1900. *)
Lemma monthBounds_year_0 :
  monthBounds utc "0000-02" = ("0000-02-01", "0000-02-28").
Proof. vm_compute. reflexivity. Qed.

Lemma find_all (st : Store) : find (fun _ => true) st = map_to_list st.
Proof.
  unfold find. induction (map_to_list st) as [|x l IH]; simpl; [done|].
  by rewrite IH.
Qed.

(** C3: the last day the month query computes is not the one of the
    calendar for every month in [YYYY-MM] form.  For 0000-02 the year is
    read as 1900 and the end bound is 0000-02-28, in every time zone that
    keeps that day, while February of the year 0 has 29 days: an activity
    of 0000-02-29 is not listed.  In a time zone that skips the last day
    of a month, as the one of Kiritimati skipped 31 December 1994, the end
    bound is the first day of the month, 1994-12-01, and an activity of
    1994-12-15 is not listed. *)
Theorem month_end_off_calendar :
  monthDigits "0000-02" = Some (0, 2)
  /\ daysInMonth 0 2 = 29
  /\ (forall tz, keepsDay tz (lastDayOf 0 2) ->
        monthBounds tz "0000-02" = ("0000-02-01", "0000-02-28"))
  /\ monthQuery utc (Some "0000-02") {[ 1%N := leapDay ]} = Listing []
  /\ daysInMonth 1994 12 = 31
  /\ monthBounds kiritimati "1994-12" = ("1994-12-01", "1994-12-01")
  /\ monthQuery kiritimati (Some "1994-12") {[ 1%N := midDecember ]}
     = Listing [].
Proof.
  split; [reflexivity|]. split; [reflexivity|]. split.
  - intros tz Hkeeps. unfold monthBounds.
    change (split "-" "0000-02") with ["0000"; "02"].
    cbn [lookup list_lookup template default].
    change (parseInt (Some "0000")) with (Some 0).
    change (parseInt (Some "02")) with (Some 2).
    rewrite getDateOf_keepsDay by done.
    change (DateFromDay (lastDayOf 0 2)) with 28.
    reflexivity.
  - split; [vm_compute; reflexivity|]. split; [reflexivity|].
    split; vm_compute; reflexivity.
Qed.

Lemma find_sublist filter (st : Store) :
  find filter st `sublist_of` map_to_list st.
Proof.
  unfold find. induction (map_to_list st) as [|x l IH]; simpl; [done|].
  destruct (filter x.2); by constructor.
Qed.

Lemma listing_distinct filter (st : Store) :
  NoDup (sortDocs (find filter st)).*1
  /\ (length (sortDocs (find filter st)) <= size st)%nat.
Proof.
  rewrite sortDocs_perm. split.
  - apply (sublist_NoDup _ (map_to_list st).*1);
      [apply NoDup_fst_map_to_list|].
    apply fmap_sublist, find_sublist.
  - rewrite <- length_map_to_list. apply sublist_length, find_sublist.
Qed.

Lemma listing_NoDup filter (st : Store) : NoDup (sortDocs (find filter st)).
Proof. eapply NoDup_fmap_1, listing_distinct. Qed.

(** C4: the day query and the month query list the documents they
    select, each once, in ascending order of start date, then of start
    time, then of creation time; the comparison puts one activity before
    another exactly when its key is smaller in this order, reports two
    activities equal only when the three keys agree, is antisymmetric and
    transitive, and puts an empty start time before every non-empty one of
    the same date. *)
Theorem listing_order tz (st : Store) month d :
  d <> "" ->
  (exists l,
     dayQuery (Some d) st = Listing l
     /\ StronglySorted sortLe l
     /\ NoDup l
     /\ forall id a,
          (id, a) ∈ l
          <-> st !! id = Some a
              /\ String.leb (Activity.date a) d = true
              /\ String.leb d (Activity.endDate a) = true)
  /\ (exists l,
        monthQuery tz month st = Listing l
        /\ StronglySorted sortLe l
        /\ NoDup l
        /\ forall id a,
             (id, a) ∈ l
             <-> st !! id = Some a /\ monthFilter tz month a = true)
  /\ (forall a b,
        compareActivity a b = Lt
        <-> String.ltb (Activity.date a) (Activity.date b) = true
            \/ (Activity.date a = Activity.date b
                /\ (String.ltb (Activity.startTime a) (Activity.startTime b) = true
                    \/ (Activity.startTime a = Activity.startTime b
                        /\ Activity.createdAt a < Activity.createdAt b))))
  /\ (forall a b,
        compareActivity a b = Eq
        <-> Activity.date a = Activity.date b
            /\ Activity.startTime a = Activity.startTime b
            /\ Activity.createdAt a = Activity.createdAt b)
  /\ (forall a b, compareActivity b a = CompOpp (compareActivity a b))
  /\ (forall a b c,
        compareActivity a b <> Gt -> compareActivity b c <> Gt ->
        compareActivity a c <> Gt)
  /\ (forall a b,
        Activity.date a = Activity.date b ->
        Activity.startTime a = "" -> Activity.startTime b <> "" ->
        compareActivity a b = Lt).
Proof.
  intros Hd. split; [|split; [|split; [|split; [|split; [|split]]]]].
  - unfold dayQuery.
    assert (truthy (Some d) = Some d) as -> by by apply truthy_Some.
    eexists. split; [done|]. split; [apply sortDocs_sorted|].
    split; [apply listing_NoDup|]. intros id a.
    rewrite elem_of_sorted_find. unfold lte, gte. by rewrite andb_true_iff.
  - eexists. split; [done|]. split; [apply sortDocs_sorted|].
    split; [apply listing_NoDup|]. intros id a. apply elem_of_sorted_find.
  - intros a b. unfold compareActivity, String.ltb.
    destruct (String.compare (Activity.date a) (Activity.date b)) eqn:E1; simpl.
    + apply (cmp_eq String.compare) in E1.
      destruct (String.compare (Activity.startTime a) (Activity.startTime b))
        eqn:E2; simpl.
      * apply (cmp_eq String.compare) in E2. rewrite Z.compare_lt_iff.
        intuition congruence.
      * intuition congruence.
      * split; [done|]. intros [?|[_ [?|[E3 _]]]]; try done.
        apply (cmp_eq String.compare) in E3. congruence.
    + intuition congruence.
    + split; [done|]. intros [?|[E3 _]]; [done|].
      apply (cmp_eq String.compare) in E3. congruence.
  - intros a b. rewrite compareActivity_key, (cmp_eq compareKey).
    unfold sortKey. split; [by intros [= -> -> ->]|by intros (-> & -> & ->)].
  - intros a b. rewrite !compareActivity_key. apply (cmp_antisym compareKey).
  - intros a b c. rewrite !compareActivity_key. apply (cmp_le_trans compareKey).
  - intros a b Hdate Hempty Hnonempty. unfold compareActivity.
    rewrite Hdate, (cmp_refl String.compare), Hempty. simpl.
    by destruct (Activity.startTime b).
Qed.

Lemma listing_order_witness :
  exists l,
    dayQuery (Some "2025-02-01")
      {[ 1%N := standup; 2%N := retreat; 3%N := workshop ]}
    = Listing l
    /\ StronglySorted sortLe l
    /\ NoDup l
    /\ l = [(3%N, workshop); (2%N, retreat); (1%N, standup)].
Proof.
  destruct (listing_order utc
              {[ 1%N := standup; 2%N := retreat; 3%N := workshop ]}
              None "2025-02-01")
    as [(l & Hl & Hsorted & Hdup & _) _]; [discriminate|].
  exists l. split; [exact Hl|]. split; [exact Hsorted|]. split; [exact Hdup|].
  vm_compute in Hl. injection Hl as <-. reflexivity.
Defined.

(** ** The earlier day query *)

#[global] Instance timeLe_trans : Transitive Legacy.timeLe.
Proof.
  intros x y z. unfold Legacy.timeLe, Legacy.compareTimes.
  apply (cmp_le_trans
           (fun a b : string * Timestamp =>
              thenBy (String.compare a.1 b.1) (Z.compare a.2 b.2))
           (_, _) (_, _) (_, _)).
Qed.

#[global] Instance timeLe_total : Total Legacy.timeLe.
Proof.
  intros x y. unfold Legacy.timeLe, Legacy.compareTimes.
  apply (cmp_le_total
           (fun a b : string * Timestamp =>
              thenBy (String.compare a.1 b.1) (Z.compare a.2 b.2))
           (_, _) (_, _)).
Qed.

Lemma StronglySorted_weaken {A} (R R' : relation A) l :
  (forall x y, x ∈ l -> y ∈ l -> R x y -> R' x y) ->
  StronglySorted R l -> StronglySorted R' l.
Proof.
  intros Himpl Hsorted. induction Hsorted as [|x l Hsorted IH Hx].
  - constructor.
  - constructor.
    + apply IH. intros y z Hy Hz. apply Himpl; by right.
    + apply Forall_forall. intros y Hy. apply Himpl; [by left|by right|].
      by apply (proj1 (Forall_forall _ _) Hx).
Qed.

(** On a collection of one-day activities the earlier day query lists the
    same documents as the current one, and in an order that is also
    ascending for the current sort. *)
Lemma legacy_day_query (st : Store) d :
  d <> "" ->
  (forall id a, st !! id = Some a -> Activity.endDate a = Activity.date a) ->
  exists l l',
    Legacy.dayQuery (Some d) st = Listing l
    /\ dayQuery (Some d) st = Listing l'
    /\ l ≡ₚ l'
    /\ StronglySorted sortLe l.
Proof.
  intros Hd Hday. unfold Legacy.dayQuery, dayQuery.
  assert (truthy (Some d) = Some d) as -> by by apply truthy_Some.
  eexists _, _. split; [done|]. split; [done|].
  assert (find (fun a => lte (Activity.date a) d && gte (Activity.endDate a) d) st
          = find (fun a => String.eqb (Activity.date a) d) st) as ->.
  { unfold find. apply filter_ext_in. intros [id a] Hin. simpl.
    apply list_elem_of_In, elem_of_map_to_list, Hday in Hin. rewrite Hin.
    unfold lte, gte. destruct (String.eqb_spec (Activity.date a) d) as [->|Hne].
    - by rewrite leb_refl.
    - apply andb_false_iff.
      destruct (String.leb (Activity.date a) d) eqn:E1; [|by left].
      destruct (String.leb d (Activity.date a)) eqn:E2; [|by right].
      destruct Hne. by apply String.leb_antisym. }
  split; [by rewrite merge_sort_Permutation, sortDocs_perm|].
  apply (StronglySorted_weaken Legacy.timeLe);
    [|apply StronglySorted_merge_sort; apply _].
  intros [i a] [j b].
  rewrite !merge_sort_Permutation, !elem_of_find.
  intros [_ Ha%String.eqb_eq] [_ Hb%String.eqb_eq].
  unfold sortLe, Legacy.timeLe, compareActivity, Legacy.compareTimes. simpl.
  by rewrite Ha, Hb, (cmp_refl String.compare).
Qed.

(** ** The scenarios of the specification *)

Example create_without_endDate :
  (createActivity 0
     (Body.mk (Some "2025-03-10") None (Some "Kickoff")
        None None None None None None JUndefined) [] ∅).1
  = Created 0%N
      (Activity.mk "2025-03-10" "2025-03-10" false "Kickoff"
         "Other" "Unspecified" "Planned" "" "" "" [] 0).
Proof. vm_compute. reflexivity. Qed.

Example create_inverted_range :
  (createActivity 0
     (Body.mk (Some "2025-03-10") (Some "2025-03-05") (Some "X")
        None None None None None None JUndefined) [] ∅).1
  = Created 0%N
      (Activity.mk "2025-03-10" "2025-03-10" false "X"
         "Other" "Unspecified" "Planned" "" "" "" [] 0).
Proof. vm_compute. reflexivity. Qed.

Example month_overlaps_start :
  monthQuery utc (Some "2025-02") {[ 7%N := workshop ]}
  = Listing [(7%N, workshop)].
Proof. vm_compute. reflexivity. Qed.

Example day_inside_range :
  dayQuery (Some "2025-02-01") {[ 7%N := workshop ]}
  = Listing [(7%N, workshop)].
Proof. vm_compute. reflexivity. Qed.

Example day_outside_range :
  dayQuery (Some "2025-02-03") {[ 7%N := workshop ]} = Listing [].
Proof. vm_compute. reflexivity. Qed.

Example month_not_in_form :
  monthBounds utc "2025" = ("2025-undefined-01", "2025-undefined-NaN").
Proof. vm_compute. reflexivity. Qed.

Example ten_files_accepted :
  exists id a st',
    postActivities 0
      (Body.mk (Some "2025-03-10") None (Some "Minutes")
         None None None None None None (JBool false))
      (replicate 10 (File.mk "files" "scan.pdf" "application/pdf" 1024 "1-1.pdf"))
      ∅
    = (Created id a, st')
    /\ length (Activity.attachments a) = 10%nat.
Proof. eexists _, _, _. vm_compute. split; reflexivity. Qed.

Example eleven_files_rejected :
  postActivities 0
    (Body.mk (Some "2025-03-10") None (Some "Minutes")
       None None None None None None (JBool false))
    (replicate 11 (File.mk "files" "scan.pdf" "application/pdf" 1024 "1-1.pdf"))
    ∅
  = (Unhandled (LIMIT_UNEXPECTED_FILE "files"), ∅).
Proof. vm_compute. reflexivity. Qed.

Example other_field_rejected :
  postActivities 0
    (Body.mk (Some "2025-03-10") None (Some "Minutes")
       None None None None None None (JBool false))
    [File.mk "photo" "a.png" "image/png" 10 "1-2.png"]
    ∅
  = (Unhandled (LIMIT_UNEXPECTED_FILE "photo"), ∅).
Proof. vm_compute. reflexivity. Qed.

(** * The remaining routes *)

(** ** Login *)

(** X1: the login route answers 200 with [success: true] exactly when the
    user name and the password are both the string "staff"; any other pair
    of values is answered by 401 with [success: false]. *)
Theorem login_staff_only username password :
  (Login.success (login username password) = true
   <-> username = JStr "staff" /\ password = JStr "staff")
  /\ (Login.code (login username password) = 200
      <-> username = JStr "staff" /\ password = JStr "staff")
  /\ (Login.success (login username password) = false ->
      login username password
      = Login.mk 401 false "Invalid username or password").
Proof.
  assert (forall v, strictEqStr v "staff" = true <-> v = JStr "staff") as Hstaff.
  { intros v. destruct v as [| |b|n|s|]; simpl; try solve [intuition congruence].
    rewrite String.eqb_eq. intuition congruence. }
  unfold login.
  destruct (strictEqStr username "staff" && strictEqStr password "staff")
    eqn:E; simpl.
  - apply andb_true_iff in E as [Hu%Hstaff Hp%Hstaff]. intuition congruence.
  - apply andb_false_iff in E.
    assert (~ (username = JStr "staff" /\ password = JStr "staff")) as Hno.
    { intros [Hu%Hstaff Hp%Hstaff]. destruct E; congruence. }
    split; [|split]; [split; [discriminate|tauto]..|done].
Qed.

(** ** The upload middleware before the handler *)

Lemma uploadArray_names name maxCount parts files :
  uploadArray name maxCount parts = inr files ->
  Forall (fun file => File.fieldname file = name) parts.
Proof.
  revert maxCount files.
  induction parts as [|file rest IH]; intros maxCount files; simpl.
  - constructor.
  - destruct (String.eqb_spec (File.fieldname file) name) as [Hname|]; [|done].
    destruct maxCount as [|filesLeft]; [done|].
    destruct (uploadArray name filesLeft rest) as [err|files'] eqn:E; [done|].
    intros _. constructor; [done|]. by apply (IH _ _ E).
Qed.

Lemma uploadArray_inl name maxCount parts field :
  uploadArray name maxCount parts = inl (LIMIT_UNEXPECTED_FILE field) ->
  exists file, file ∈ parts /\ File.fieldname file = field.
Proof.
  revert maxCount.
  induction parts as [|file rest IH]; intros maxCount; simpl; [done|].
  destruct (String.eqb (File.fieldname file) name).
  - destruct maxCount as [|filesLeft].
    + intros [= <-]. exists file. split; [by left|done].
    + destruct (uploadArray name filesLeft rest) as [err|files'] eqn:E; [|done].
      intros [= ->]. destruct (IH _ E) as (file' & Hin & Hfield).
      exists file'. split; [by right|done].
  - intros [= <-]. exists file. split; [by left|done].
Qed.

Lemma createActivity_not_Unhandled now body files st err :
  (createActivity now body files st).1 <> Unhandled err.
Proof.
  destruct (body_checked body) as [Hmiss|(d & t & Hdate & Hd & Htitle & Ht)].
  - by rewrite createActivity_invalid.
  - by rewrite (createActivity_valid _ _ _ _ d t).
Qed.

(** X2: a request with a named file under a field other than "files", or
    with more than ten named files, does not reach the handler of the
    creation route, whatever its body holds: it ends in an error of the
    upload middleware, not in the handler's 400, and the collection is
    left as it is. *)
Theorem upload_rejection now body parts st :
  Exists (fun file => File.fieldname file <> "files"
                      /\ File.originalname file <> "") parts
  \/ (10 < length (List.filter
                     (fun file => negb (String.eqb (File.originalname file) ""))
                     parts))%nat ->
  exists err, postActivities now body parts st = (Unhandled err, st).
Proof.
  intros Hbad. unfold postActivities.
  destruct (uploadArray "files" 10 parts) as [err|files] eqn:Hup;
    [by exists err|].
  pose proof (uploadArray_names _ _ _ _ Hup) as Hnames.
  apply uploadArray_inr in Hup as [-> Hlen].
  destruct Hbad as [Hfield|Hmany].
  - apply Exists_exists in Hfield as (file & Hin & Hfield & _).
    destruct Hfield. by apply (proj1 (Forall_forall _ _) Hnames).
  - pose proof (filter_length_le
                  (fun file => negb (String.eqb (File.originalname file) ""))
                  parts). lia.
Qed.

Lemma upload_rejection_witness :
  exists err,
    postActivities 0
      (Body.mk None None None None None None None None None JUndefined)
      [File.mk "files" "scan.pdf" "application/pdf" 1024 "1-1.pdf";
       File.mk "photo" "a.png" "image/png" 10 "1-2.png"]
      ∅
    = (Unhandled err, ∅).
Proof.
  apply (upload_rejection 0
           (Body.mk None None None None None None None None None JUndefined)
           [File.mk "files" "scan.pdf" "application/pdf" 1024 "1-1.pdf";
            File.mk "photo" "a.png" "image/png" 10 "1-2.png"]
           ∅).
  left. apply Exists_cons_tl, Exists_cons_hd. split; discriminate.
Defined.

(** ** What creation stores *)

Lemma createActivity_stored now body files st id a st' :
  createActivity now body files st = (Created id a, st') ->
  exists d t,
    Body.date body = Some d /\ d <> ""
    /\ Body.title body = Some t /\ t <> ""
    /\ id = fresh (dom st)
    /\ a = storedActivity now body files d t
    /\ st' = <[id := a]> st.
Proof.
  intros Hrun.
  destruct (body_checked body) as [Hmiss|(d & t & Hdate & Hd & Htitle & Ht)].
  - by rewrite createActivity_invalid in Hrun.
  - rewrite (createActivity_valid _ _ _ _ d t) in Hrun by done.
    injection Hrun as <- <- <-. by exists d, t.
Qed.

Lemma postActivities_stored now body parts st id a st' :
  postActivities now body parts st = (Created id a, st') ->
  Forall (fun file => File.fieldname file = "files") parts
  /\ (length parts <= 10)%nat
  /\ createActivity now body parts st = (Created id a, st').
Proof.
  unfold postActivities.
  destruct (uploadArray "files" 10 parts) as [err|files] eqn:Hup; [done|].
  pose proof (uploadArray_names _ _ _ _ Hup) as Hnames.
  apply uploadArray_inr in Hup as [-> Hlen]. done.
Qed.

Lemma postActivities_unchanged now body parts st :
  (forall id a, (postActivities now body parts st).1 <> Created id a) ->
  (postActivities now body parts st).2 = st.
Proof.
  unfold postActivities.
  destruct (uploadArray "files" 10 parts) as [err|files]; [done|].
  intros Hno.
  destruct (createActivity_cases now body files st)
    as [Hsame|(id & a & Hrun & _)]; [done|].
  rewrite Hrun in Hno. by destruct (Hno id a).
Qed.

(** X3: a stored activity has one attachment per uploaded file, in the
    order of the upload; each attachment takes its names, type and size
    from its file, its URL is "/uploads/" followed by the stored file
    name, and its upload time is the time of the request. *)
Theorem attachments_follow_files now body parts st id a st' :
  postActivities now body parts st = (Created id a, st') ->
  length (Activity.attachments a) = length parts
  /\ forall (i : nat) file,
       parts !! i = Some file ->
       exists att,
         Activity.attachments a !! i = Some att
         /\ Attachment.fileName att = File.filename file
         /\ Attachment.originalName att = File.originalname file
         /\ Attachment.mimeType att = File.mimetype file
         /\ Attachment.size att = File.size file
         /\ Attachment.url att = "/uploads/" +:+ File.filename file
         /\ Attachment.uploadedAt att = now.
Proof.
  intros (_ & _ & Hrun)%postActivities_stored.
  apply createActivity_stored in Hrun as (d & t & _ & _ & _ & _ & _ & -> & _).
  simpl. split; [apply length_fmap|].
  intros i file Hfile. exists (toAttachment now file).
  by rewrite list_lookup_fmap, Hfile.
Qed.

Lemma attachments_follow_files_witness :
  exists att,
    Activity.attachments
      (storedActivity 5
         (Body.mk (Some "2025-03-10") None (Some "Minutes")
            None None None None None None JUndefined)
         [File.mk "files" "scan.pdf" "application/pdf" 1024 "17-4.pdf"]
         "2025-03-10" "Minutes") !! 0%nat = Some att
    /\ Attachment.url att = "/uploads/17-4.pdf".
Proof.
  destruct (attachments_follow_files 5
              (Body.mk (Some "2025-03-10") None (Some "Minutes")
                 None None None None None None JUndefined)
              [File.mk "files" "scan.pdf" "application/pdf" 1024 "17-4.pdf"]
              ∅ 0%N
              (storedActivity 5
                 (Body.mk (Some "2025-03-10") None (Some "Minutes")
                    None None None None None None JUndefined)
                 [File.mk "files" "scan.pdf" "application/pdf" 1024 "17-4.pdf"]
                 "2025-03-10" "Minutes")
              (<[0%N := storedActivity 5
                 (Body.mk (Some "2025-03-10") None (Some "Minutes")
                    None None None None None None JUndefined)
                 [File.mk "files" "scan.pdf" "application/pdf" 1024 "17-4.pdf"]
                 "2025-03-10" "Minutes"]> ∅))
    as [_ Hatt]; [vm_compute; reflexivity|].
  destruct (Hatt 0%nat
              (File.mk "files" "scan.pdf" "application/pdf" 1024 "17-4.pdf"))
    as (att & Hlookup & _ & _ & _ & _ & Hurl & _); [reflexivity|].
  exists att. split; [exact Hlookup|exact Hurl].
Defined.

(** X4: when [isFullDay] does not resolve to true, the activity is stored
    as a timed one: its flag is false and its start and end times are the
    strings of the request, the empty string for an absent one; the two
    times are not compared with each other. *)
Theorem times_kept_unless_full_day now body files st d t :
  Body.date body = Some d -> d <> "" ->
  Body.title body = Some t -> t <> "" ->
  fullDayFlag (Body.isFullDay body) = false ->
  exists id a,
    createActivity now body files st = (Created id a, <[id := a]> st)
    /\ Activity.isFullDay a = false
    /\ Activity.startTime a = default "" (Body.startTime body)
    /\ Activity.endTime a = default "" (Body.endTime body).
Proof.
  intros Hdate Hd Htitle Ht Hfull.
  eexists _, _. split; [by apply createActivity_valid|].
  simpl. by rewrite Hfull.
Qed.

Lemma times_kept_unless_full_day_witness :
  exists id a,
    createActivity 0
      (Body.mk (Some "2025-03-10") None (Some "Review")
         None None None (Some "17:30") (Some "09:00") None (JStr "off")) [] ∅
    = (Created id a, <[id := a]> ∅)
    /\ Activity.isFullDay a = false
    /\ Activity.startTime a = "17:30"
    /\ Activity.endTime a = "09:00".
Proof.
  apply (times_kept_unless_full_day 0
           (Body.mk (Some "2025-03-10") None (Some "Review")
              None None None (Some "17:30") (Some "09:00") None (JStr "off"))
           [] ∅ "2025-03-10" "Review");
    [reflexivity|discriminate|reflexivity|discriminate|reflexivity].
Defined.

(** X5: a creation that answers with the new activity has stored it under
    an identifier that was not in use, has left every other document as it
    was and has made the collection one document larger; a creation that
    answers anything else has not changed the collection. *)
Theorem creation_adds_one_document now body parts (st : Store) :
  (forall id a st',
     postActivities now body parts st = (Created id a, st') ->
     st !! id = None
     /\ st' !! id = Some a
     /\ (forall id', id' <> id -> st' !! id' = st !! id')
     /\ size st' = S (size st))
  /\ ((forall id a, (postActivities now body parts st).1 <> Created id a) ->
      (postActivities now body parts st).2 = st).
Proof.
  split; [|apply postActivities_unchanged].
  intros id a st' (_ & _ & Hrun)%postActivities_stored.
  apply createActivity_Created in Hrun as (-> & Hfresh & _).
  split; [done|]. split; [apply lookup_insert_eq|].
  split; [|by apply map_size_insert_None].
  intros id' Hne. by apply lookup_insert_ne.
Qed.

(** X6: deleting the activity a creation has just stored, by the
    identifier of the answer, gives back the collection as it was before
    the creation. *)
Theorem create_then_delete (castObjectId : string -> option ObjectId)
    now body parts (st : Store) id a st' param :
  postActivities now body parts st = (Created id a, st') ->
  castObjectId param = Some id ->
  deleteActivity castObjectId param st' = (Success, st).
Proof.
  intros (_ & _ & Hrun)%postActivities_stored Hcast.
  apply createActivity_Created in Hrun as (-> & Hfresh & _).
  unfold deleteActivity. rewrite Hcast. by rewrite delete_insert_id.
Qed.

Lemma create_then_delete_witness :
  deleteActivity (fun id => if String.eqb id "000000000000000000000000"
                            then Some 0%N else None)
    "000000000000000000000000"
    (<[0%N := storedActivity 0
                (Body.mk (Some "2025-03-10") None (Some "Kickoff")
                   None None None None None None JUndefined)
                [] "2025-03-10" "Kickoff"]> ∅)
  = (Success, ∅).
Proof.
  apply (create_then_delete
           (fun id => if String.eqb id "000000000000000000000000"
                      then Some 0%N else None)
           0
           (Body.mk (Some "2025-03-10") None (Some "Kickoff")
              None None None None None None JUndefined)
           [] ∅ 0%N
           (storedActivity 0
              (Body.mk (Some "2025-03-10") None (Some "Kickoff")
                 None None None None None None JUndefined)
              [] "2025-03-10" "Kickoff"));
    [vm_compute; reflexivity|reflexivity].
Defined.

Lemma leb_trans a b c :
  String.leb a b = true -> String.leb b c = true -> String.leb a c = true.
Proof.
  unfold String.leb. intros Hab Hbc.
  pose proof (cmp_le_trans String.compare a b c) as Htrans.
  destruct (String.compare a c); [done..|].
  destruct Htrans; [by destruct (String.compare a b)
                   |by destruct (String.compare b c)|done].
Qed.

Lemma leb_nonempty a b : a <> "" -> String.leb a b = true -> b <> "".
Proof. intros Ha Hab ->. by destruct a. Qed.

(** X7: once an activity is created, the day query lists it, under the
    identifier of the answer, for every day from its start date to its
    stored end date, the start date itself among them. *)
Theorem created_activity_listed now body files (st : Store) d t q :
  Body.date body = Some d -> d <> "" ->
  Body.title body = Some t -> t <> "" ->
  String.leb d q = true ->
  String.leb q (storedEndDate d (Body.endDate body)) = true ->
  exists id a st' l,
    createActivity now body files st = (Created id a, st')
    /\ dayQuery (Some q) st' = Listing l
    /\ (id, a) ∈ l
    /\ exists l0,
         dayQuery (Some d) st' = Listing l0 /\ (id, a) ∈ l0.
Proof.
  intros Hdate Hd Htitle Ht Hfrom Hto.
  pose proof (leb_nonempty _ _ Hd Hfrom) as Hq.
  eexists _, _, _, _. split; [by apply createActivity_valid|].
  unfold dayQuery.
  assert (truthy (Some q) = Some q) as -> by by apply truthy_Some.
  assert (truthy (Some d) = Some d) as -> by by apply truthy_Some.
  split; [done|]. split; [|eexists; split; [done|]].
  - apply elem_of_sorted_find. split; [apply lookup_insert_eq|].
    unfold lte, gte. simpl. by rewrite Hfrom, Hto.
  - apply elem_of_sorted_find. split; [apply lookup_insert_eq|].
    unfold lte, gte. simpl. by rewrite leb_refl, storedEndDate_ge.
Qed.

Lemma created_activity_listed_witness :
  exists id a st' l,
    createActivity 0
      (Body.mk (Some "2025-03-10") (Some "2025-03-12") (Some "Audit")
         None None None None None None JUndefined) [] ∅
    = (Created id a, st')
    /\ dayQuery (Some "2025-03-11") st' = Listing l
    /\ (id, a) ∈ l
    /\ exists l0,
         dayQuery (Some "2025-03-10") st' = Listing l0 /\ (id, a) ∈ l0.
Proof.
  apply (created_activity_listed 0
           (Body.mk (Some "2025-03-10") (Some "2025-03-12") (Some "Audit")
              None None None None None None JUndefined)
           [] ∅ "2025-03-10" "Audit" "2025-03-11");
    [reflexivity|discriminate|reflexivity|discriminate|reflexivity|reflexivity].
Defined.

(** ** What deletion removes *)

(** X8: a deletion removes the document of its identifier and no other:
    afterwards the day query and the month query list exactly the
    documents they listed before, less the one deleted.  A route parameter
    that is not an identifier is answered by 500 and removes nothing. *)
Theorem deletion_removes_one tz (castObjectId : string -> option ObjectId)
    param (st : Store) q month :
  q <> "" ->
  (forall oid, castObjectId param = Some oid ->
     exists l l' m m',
       dayQuery (Some q) st = Listing l
       /\ dayQuery (Some q) (deleteActivity castObjectId param st).2 = Listing l'
       /\ monthQuery tz month st = Listing m
       /\ monthQuery tz month (deleteActivity castObjectId param st).2 = Listing m'
       /\ (forall id a, (id, a) ∈ l' <-> (id, a) ∈ l /\ id <> oid)
       /\ (forall id a, (id, a) ∈ m' <-> (id, a) ∈ m /\ id <> oid))
  /\ (castObjectId param = None ->
      deleteActivity castObjectId param st = (Failure 500 "Server error.", st)).
Proof.
  intros Hq. unfold deleteActivity. split.
  - intros oid ->. simpl. unfold dayQuery, monthQuery.
    assert (truthy (Some q) = Some q) as -> by by apply truthy_Some.
    eexists _, _, _, _. do 4 (split; [done|]).
    split; intros id a; rewrite !elem_of_sorted_find, lookup_delete_Some;
      intuition congruence.
  - by intros ->.
Qed.

Lemma deletion_removes_one_witness :
  exists l',
    dayQuery (Some "2025-02-01")
      (deleteActivity (fun id => if String.eqb id "000000000000000000000007"
                                 then Some 7%N else None)
         "000000000000000000000007" {[ 7%N := workshop ]}).2
    = Listing l'
    /\ (7%N, workshop) ∉ l'.
Proof.
  destruct (deletion_removes_one utc
              (fun id => if String.eqb id "000000000000000000000007"
                         then Some 7%N else None)
              "000000000000000000000007" {[ 7%N := workshop ]}
              "2025-02-01" None) as [Hdel _]; [discriminate|].
  destruct (Hdel 7%N) as (l & l' & m & m' & _ & Hl' & _ & _ & Hday & _);
    [reflexivity|].
  exists l'. split; [exact Hl'|].
  intros Hin. apply Hday in Hin as [_ Hne]. by apply Hne.
Defined.

(** ** An invariant of the collection *)

Lemma storedActivity_wellFormed now body files d t :
  d <> "" -> t <> "" -> (length files <= 10)%nat ->
  wellFormed (storedActivity now body files d t).
Proof.
  intros Hd Ht Hlen. unfold wellFormed, storedActivity. simpl.
  split; [done|]. split; [done|]. split; [apply storedEndDate_ge|].
  split; [by intros ->|]. split; [by rewrite length_fmap|].
  apply Forall_fmap, Forall_forall. by intros file _.
Qed.

Lemma serve_wellFormed castObjectId w (st : Store) :
  map_Forall (fun _ a => wellFormed a) st ->
  map_Forall (fun _ a => wellFormed a) (serve castObjectId w st).2.
Proof.
  intros Hst. destruct w as [now body parts|param]; simpl.
  - destruct (postActivities now body parts st) as [r st'] eqn:Hpost.
    pose proof (postActivities_unchanged now body parts st) as Hsame.
    rewrite Hpost in Hsame. simpl in Hsame.
    destruct r as [id a|l| |code message|err];
      try (rewrite Hsame; [done|discriminate]).
    pose proof Hpost as (_ & Hlen & Hrun)%postActivities_stored.
    apply createActivity_stored in Hrun
      as (d & t & _ & Hd & _ & Ht & _ & -> & ->).
    simpl. apply map_Forall_insert_2; [|done].
    by apply storedActivity_wellFormed.
  - unfold deleteActivity. destruct (castObjectId param); simpl; [|done].
    by apply map_Forall_delete.
Qed.

(** X9: whatever creations and deletions are served, in whatever order,
    every activity of the collection keeps a non-empty start date and
    title, an end date at or after the start date, empty times when it is
    a full-day activity, at most ten attachments, and attachment URLs of
    the form "/uploads/" followed by the stored file name. *)
Theorem collection_invariant (castObjectId : string -> option ObjectId)
    ws (st : Store) id a :
  (forall id a, st !! id = Some a -> wellFormed a) ->
  serveAll castObjectId ws st !! id = Some a ->
  wellFormed a.
Proof.
  intros Hst Hlookup.
  assert (map_Forall (fun _ a => wellFormed a) (serveAll castObjectId ws st))
    as Hall; [|by apply (Hall id)].
  clear id a Hlookup.
  assert (map_Forall (fun _ a => wellFormed a) st) as Hinv by exact Hst.
  clear Hst. revert st Hinv. unfold serveAll.
  induction ws as [|w ws IH]; intros st Hinv; simpl; [done|].
  apply IH. by apply serve_wellFormed.
Qed.

Lemma collection_invariant_witness :
  wellFormed
    (storedActivity 3
       (Body.mk (Some "2025-03-10") (Some "2025-03-01") (Some "Audit")
          None None None (Some "09:00") None None (JStr "on"))
       [] "2025-03-10" "Audit").
Proof.
  apply (collection_invariant
           (fun _ => Some 0%N)
           [PostActivities 1
              (Body.mk (Some "2025-01-01") None (Some "Old")
                 None None None None None None JUndefined) [];
            DeleteActivity "000000000000000000000000";
            PostActivities 3
              (Body.mk (Some "2025-03-10") (Some "2025-03-01") (Some "Audit")
                 None None None (Some "09:00") None None (JStr "on")) []]
           ∅ 0%N).
  - intros id a Hlookup. by rewrite lookup_empty in Hlookup.
  - vm_compute. reflexivity.
Defined.

(** ** The listings *)

(** X10: a listing of the day query or of the month query names every
    identifier at most once, holds only documents of the collection, each
    under its own identifier, and is no longer than the collection. *)
Theorem listings_have_no_repetition tz (st : Store) q month :
  q <> "" ->
  exists l m,
    dayQuery (Some q) st = Listing l
    /\ monthQuery tz month st = Listing m
    /\ NoDup l.*1 /\ NoDup m.*1
    /\ (length l <= size st)%nat /\ (length m <= size st)%nat
    /\ (forall id a, (id, a) ∈ l -> st !! id = Some a)
    /\ (forall id a, (id, a) ∈ m -> st !! id = Some a).
Proof.
  intros Hq. unfold dayQuery, monthQuery.
  assert (truthy (Some q) = Some q) as -> by by apply truthy_Some.
  eexists _, _. do 2 (split; [done|]).
  split; [apply listing_distinct|]. split; [apply listing_distinct|].
  split; [apply listing_distinct|]. split; [apply listing_distinct|].
  split; intros id a [Hin _]%elem_of_sorted_find; done.
Qed.

Lemma listings_have_no_repetition_witness :
  exists l,
    dayQuery (Some "2025-02-01") {[ 7%N := workshop ]} = Listing l
    /\ NoDup l.*1.
Proof.
  destruct (listings_have_no_repetition utc {[ 7%N := workshop ]}
              "2025-02-01" None) as (l & m & Hl & _ & Hdup & _);
    [discriminate|].
  exists l. split; [exact Hl|exact Hdup].
Defined.

(** X11: when the day [q] lies between the two bounds the month query
    computes for [month], every activity the day query lists for [q] is
    also listed by the month query; so is it when no month is given. *)
Theorem day_listing_within_month tz (st : Store) q month :
  q <> "" ->
  (forall M, truthy month = Some M ->
     String.leb (monthBounds tz M).1 q = true
     /\ String.leb q (monthBounds tz M).2 = true) ->
  exists l m,
    dayQuery (Some q) st = Listing l
    /\ monthQuery tz month st = Listing m
    /\ forall id a, (id, a) ∈ l -> (id, a) ∈ m.
Proof.
  intros Hq Hbounds. unfold dayQuery, monthQuery.
  assert (truthy (Some q) = Some q) as -> by by apply truthy_Some.
  eexists _, _. do 2 (split; [done|]).
  intros id a. rewrite !elem_of_sorted_find.
  intros [Hin [Hfrom Hto]%andb_true_iff]. split; [done|].
  unfold monthFilter. destruct (truthy month) as [M|] eqn:HM; [|done].
  destruct (Hbounds M eq_refl) as [Hstart Hend].
  destruct (monthBounds tz M) as [startOfMonth endOfMonth]. simpl in *.
  unfold lte, gte in *. apply andb_true_iff. split.
  - by apply (leb_trans _ q).
  - by apply (leb_trans _ q).
Qed.

Lemma day_listing_within_month_witness :
  exists l m,
    dayQuery (Some "2025-02-01") {[ 7%N := workshop ]} = Listing l
    /\ monthQuery utc (Some "2025-02") {[ 7%N := workshop ]} = Listing m
    /\ forall id a, (id, a) ∈ l -> (id, a) ∈ m.
Proof.
  apply (day_listing_within_month utc {[ 7%N := workshop ]}
           "2025-02-01" (Some "2025-02")); [discriminate|].
  intros M [= <-]. split; reflexivity.
Defined.

(** ** Month arguments that are not months *)

Lemma split_without sep s : occurs sep s = false -> split sep s = [s].
Proof.
  induction s as [|c s IH]; simpl; [done|].
  intros [Hc Hs]%orb_false_iff. by rewrite Hc, (IH Hs).
Qed.

Lemma split_nonempty sep s : split sep s <> [].
Proof.
  destruct s as [|c s]; simpl; [done|].
  destruct (Ascii.eqb c sep); [done|]. by destruct (split sep s).
Qed.

Lemma split_app sep s rest :
  split sep (s +:+ String sep rest) = split sep s ++ split sep rest.
Proof.
  induction s as [|c s IH]; simpl.
  - by rewrite (proj2 (Ascii.eqb_eq sep sep) eq_refl).
  - change (String.app s (String sep rest)) with (s +:+ String sep rest).
    rewrite IH. destruct (Ascii.eqb c sep); [done|].
    pose proof (split_nonempty sep s). by destruct (split sep s).
Qed.

Lemma split_with sep s :
  occurs sep s = true -> (2 <= length (split sep s))%nat.
Proof.
  induction s as [|c s IH]; simpl; [done|].
  destruct (Ascii.eqb c sep); simpl.
  - intros _. destruct s; simpl; [lia|].
    destruct (Ascii.eqb _ _); simpl; [lia|]. destruct (split sep s); simpl; lia.
  - intros Hs. specialize (IH Hs). destruct (split sep s); simpl in *; lia.
Qed.

(** X12: for a month argument without a hyphen the handler finds no month
    part; it does not fail, and filters with the bounds
    [<month>-undefined-01] and [<month>-undefined-NaN]. *)
Theorem month_without_hyphen tz month :
  occurs "-" month = false ->
  monthBounds tz month
  = (month +:+ "-undefined-01", month +:+ "-undefined-NaN").
Proof.
  intros Hmonth. unfold monthBounds. rewrite (split_without _ _ Hmonth).
  simpl. by destruct (parseInt (Some month)).
Qed.

Lemma month_without_hyphen_witness :
  monthBounds utc "202502" = ("202502-undefined-01", "202502-undefined-NaN").
Proof. apply (month_without_hyphen utc "202502"). reflexivity. Defined.

(** X13: the handler reads the first two hyphen-separated parts of the
    month argument and nothing else: whatever follows a further hyphen
    does not change the bounds, so a full date is read as its month. *)
Theorem month_extra_parts_ignored tz month rest :
  occurs "-" month = true ->
  monthBounds tz (month +:+ String "-" rest) = monthBounds tz month.
Proof.
  intros Hmonth. unfold monthBounds. rewrite split_app.
  pose proof (split_with _ _ Hmonth) as Hlen.
  by rewrite !lookup_app_l by lia.
Qed.

Lemma month_extra_parts_ignored_witness :
  monthBounds utc "2024-02-15" = ("2024-02-01", "2024-02-29").
Proof.
  transitivity (monthBounds utc "2024-02").
  - apply (month_extra_parts_ignored utc "2024-02" "15"). reflexivity.
  - reflexivity.
Defined.

Lemma MakeDay_roll_over yr m :
  MakeDay yr m 0 = MakeDay (yr + (m - 1) / 12) ((m - 1) mod 12 + 1) 0.
Proof.
  unfold MakeDay.
  assert (yr + m / 12 = yr + (m - 1) / 12 + ((m - 1) mod 12 + 1) / 12) as ->
    by div_lia.
  assert (m mod 12 = ((m - 1) mod 12 + 1) mod 12) as -> by div_lia.
  done.
Qed.

Lemma getDateOf_roll_over tz y m :
  0 <= y <= 9999 -> 0 <= m <= 99 ->
  keepsDay tz (lastDayOf y m) ->
  getDateOf tz (Some y) (Some m) 0
  = Some (daysInMonth (fullYear y + (m - 1) / 12) ((m - 1) mod 12 + 1)).
Proof.
  intros Hy Hm Hkeeps. rewrite getDateOf_keepsDay by done.
  unfold lastDayOf. rewrite MakeDay_roll_over.
  assert (1 <= (m - 1) mod 12 + 1 <= 12) as Hm' by div_lia.
  by rewrite DateFromDay_lastDay.
Qed.

Lemma monthDigits_Some month y m :
  monthDigits month = Some (y, m) ->
  0 <= y <= 9999 /\ 0 <= m <= 99
  /\ split "-" month = [String.substring 0 4 month; String.substring 5 2 month]
  /\ (forall rest,
        String.substring 0 4 month +:+ "-" +:+ String.substring 5 2 month
          +:+ rest = month +:+ rest)
  /\ parseInt (Some (String.substring 0 4 month)) = Some y
  /\ parseInt (Some (String.substring 5 2 month)) = Some m.
Proof.
  unfold monthDigits.
  destruct month as [|y1 [|y2 [|y3 [|y4 [|h [|m1 [|m2 [|]]]]]]]]; try done;
    (destruct (Ascii.eqb_spec h "-") as [->|Hh];
     [|destruct h as [[] [] [] [] [] [] [] []]; done]); try done.
  destruct (digit y1) as [a|] eqn:E1; [|done].
  destruct (digit y2) as [b|] eqn:E2; [|done].
  destruct (digit y3) as [c|] eqn:E3; [|done].
  destruct (digit y4) as [d|] eqn:E4; [|done].
  destruct (digit m1) as [e|] eqn:E5; [|done].
  destruct (digit m2) as [f|] eqn:E6; [|done].
  pose proof (digit_Some _ _ E1) as (Ha & Hy1 & Hp1).
  pose proof (digit_Some _ _ E2) as (Hb & Hy2 & _).
  pose proof (digit_Some _ _ E3) as (Hc & Hy3 & _).
  pose proof (digit_Some _ _ E4) as (Hd & Hy4 & _).
  pose proof (digit_Some _ _ E5) as (He & Hm1 & Hp5).
  pose proof (digit_Some _ _ E6) as (Hf & Hm2 & _).
  simpl. intros [= <- <-].
  split; [lia|]. split; [lia|].
  rewrite Hy1, Hy2, Hy3, Hy4, Hm1, Hm2, Hp1, Hp5. simpl.
  rewrite E1, E2, E3, E4, E5, E6. simpl.
  repeat split; f_equal; lia.
Qed.

(** X14: for any four digits, a hyphen and two digits the handler computes
    bounds without checking the numbers.  In a time zone that keeps the
    day so reached, a month number outside 1 to 12 rolls over into the
    neighbouring years (00 is the December before, 13 the January after),
    and a year from 0000 to 0099 is taken as 1900 to 1999; the last day is
    the one of the month and year so reached, while the bounds keep the
    digits of the argument. *)
Theorem month_numbers_roll_over tz month y m :
  monthDigits month = Some (y, m) ->
  keepsDay tz (lastDayOf y m) ->
  monthBounds tz month
  = (month +:+ "-01",
     month +:+ "-"
       +:+ pad2 (Some (daysInMonth (fullYear y + (m - 1) / 12)
                         ((m - 1) mod 12 + 1)))).
Proof.
  intros (Hy & Hm & Hsplit & Happ & Hyear & Hmonth)%monthDigits_Some Hkeeps.
  unfold monthBounds. rewrite Hsplit. simpl.
  rewrite Hyear, Hmonth, getDateOf_roll_over by done.
  by rewrite !Happ.
Qed.

Lemma month_numbers_roll_over_witness :
  monthBounds utc "0000-14" = ("0000-14-01", "0000-14-28").
Proof.
  apply (month_numbers_roll_over utc "0000-14" 0 14); [reflexivity|].
  split; [vm_compute; discriminate|vm_compute; reflexivity].
Defined.

(** ** The month listing and the day listings *)

Lemma leb_app p a b : String.leb (p +:+ a) (p +:+ b) = String.leb a b.
Proof.
  unfold String.leb. induction p as [|c p IH]; [done|].
  change (String c p +:+ a) with (String c (p +:+ a)).
  change (String c p +:+ b) with (String c (p +:+ b)).
  simpl. by rewrite (cmp_refl Ascii.compare).
Qed.

Lemma DateFromDay_range day : 1 <= DateFromDay day <= 31.
Proof.
  unfold DateFromDay, MonthFromDay.
  pose proof (YearFromDay_spec day) as Hyear.
  set (y := YearFromDay day) in *.
  assert (DayFromYear (y + 1) = DayFromYear y + 365 + InLeapYear y) as Hnext
    by (unfold InLeapYear, DaysInYear; lia).
  pose proof (InLeapYear_spec y) as Hleap.
  set (leap := InLeapYear y) in *.
  assert (leap = 0 \/ leap = 1) as Hbit by (destruct (isLeapYear y); lia).
  set (d := day - DayFromYear y).
  assert (0 <= d < 365 + leap) as Hd by (subst d; lia).
  clearbody d leap. clear Hyear Hnext Hleap.
  repeat match goal with
         | |- context [?a <? ?b] => destruct (Z.ltb_spec a b)
         end; cbn [DayWithinYearOfMonth]; lia.
Qed.

Lemma getDateOf_range tz year month n :
  getDateOf tz year month 0 = Some n -> 1 <= n <= 31.
Proof.
  unfold getDateOf. destruct year as [y|], month as [m|]; try done.
  cbv zeta. destruct (TimeClip _) as [t|]; [|done].
  intros [= <-]. apply DateFromDay_range.
Qed.

Lemma pad2_after_first n :
  (forall d, n = Some d -> 1 <= d <= 31) ->
  String.leb "-01" ("-" +:+ pad2 n) = true.
Proof.
  destruct n as [d|]; [|done]. intros Hd. specialize (Hd d eq_refl).
  destruct d as [|p|p]; try lia.
  do 5 (try (destruct p as [p|p|]; try lia)); reflexivity.
Qed.

(** The bounds for four digits, a hyphen and two digits, in any zone. *)
Lemma monthBounds_digits tz month y m :
  monthDigits month = Some (y, m) ->
  monthBounds tz month
  = (month +:+ "-01",
     month +:+ "-" +:+ pad2 (getDateOf tz (Some y) (Some m) 0)).
Proof.
  intros (Hy & Hm & Hsplit & Happ & Hyear & Hmonth)%monthDigits_Some.
  unfold monthBounds. rewrite Hsplit. simpl.
  rewrite Hyear, Hmonth. by rewrite !Happ.
Qed.

Lemma yearMonth_monthDigits month y m :
  yearMonth month = Some (y, m) -> monthDigits month = Some (y, m).
Proof.
  unfold yearMonth, monthDigits.
  destruct month as [|y1 [|y2 [|y3 [|y4 [|h [|m1 [|m2 [|]]]]]]]]; try done;
    (destruct (Ascii.eqb_spec h "-") as [->|Hh];
     [|destruct h as [[] [] [] [] [] [] [] []]; done]); try done.
  destruct (digit y1), (digit y2), (digit y3), (digit y4), (digit m1),
    (digit m2); try done.
  cbv zeta. by destruct (_ && _).
Qed.

Lemma monthBounds_ordered tz month y m :
  yearMonth month = Some (y, m) ->
  String.leb (monthBounds tz month).1 (monthBounds tz month).2 = true
  /\ (monthBounds tz month).1 <> "".
Proof.
  intros Hmonth%yearMonth_monthDigits.
  rewrite (monthBounds_digits _ _ _ _ Hmonth). cbn [fst snd]. split.
  - rewrite leb_app. apply pad2_after_first.
    intros d. apply getDateOf_range.
  - by destruct month.
Qed.

(** X15: for a month in [YYYY-MM] form and a stored activity whose end
    date is not before its start date, the month query lists the activity
    exactly when the day query lists it for some day between the bounds
    of the month. *)
Theorem month_listing_is_union_of_days tz (st : Store) month y m id a :
  yearMonth month = Some (y, m) ->
  String.leb (Activity.date a) (Activity.endDate a) = true ->
  exists l,
    monthQuery tz (Some month) st = Listing l
    /\ ((id, a) ∈ l
        <-> exists q lq,
              String.leb (monthBounds tz month).1 q = true
              /\ String.leb q (monthBounds tz month).2 = true
              /\ dayQuery (Some q) st = Listing lq
              /\ (id, a) ∈ lq).
Proof.
  intros Hmonth Hrange.
  destruct (monthBounds_ordered tz _ _ _ Hmonth) as [Hordered Hstart].
  assert (month <> "") as Hne by by intros ->.
  eexists. split; [done|].
  rewrite elem_of_sorted_find. unfold monthFilter.
  assert (truthy (Some month) = Some month) as -> by by apply truthy_Some.
  destruct (monthBounds tz month) as [startOfMonth endOfMonth]. simpl in *.
  unfold lte, gte. rewrite andb_true_iff. split.
  - intros (Hin & Hend & Hbegin).
    destruct (String.leb (Activity.date a) startOfMonth) eqn:E.
    + exists startOfMonth. eexists. rewrite leb_refl.
      do 2 (split; [done|]). unfold dayQuery.
      assert (truthy (Some startOfMonth) = Some startOfMonth) as ->
        by by apply truthy_Some.
      split; [done|]. apply elem_of_sorted_find. split; [done|].
      unfold lte, gte. by rewrite E, Hbegin.
    + assert (String.leb startOfMonth (Activity.date a) = true) as Hafter.
      { by destruct (String.leb_total startOfMonth (Activity.date a))
          as [H|H]; [|rewrite E in H]. }
      pose proof (leb_nonempty _ _ Hstart Hafter) as Hdate.
      exists (Activity.date a). eexists.
      do 2 (split; [done|]). unfold dayQuery.
      assert (truthy (Some (Activity.date a)) = Some (Activity.date a)) as ->
        by by apply truthy_Some.
      split; [done|]. apply elem_of_sorted_find. split; [done|].
      unfold lte, gte. by rewrite leb_refl, Hrange.
  - intros (q & lq & Hfrom & Hto & Hday & Hin).
    pose proof (leb_nonempty _ _ Hstart Hfrom) as Hq.
    unfold dayQuery in Hday.
    assert (truthy (Some q) = Some q) as Hq' by by apply truthy_Some.
    rewrite Hq' in Hday. injection Hday as <-.
    apply elem_of_sorted_find in Hin as [Hin [H1 H2]%andb_true_iff].
    unfold lte, gte in *. split; [done|].
    split; by apply (leb_trans _ q).
Qed.

Lemma month_listing_is_union_of_days_witness :
  exists l,
    monthQuery utc (Some "2025-02") {[ 7%N := workshop ]} = Listing l
    /\ ((7%N, workshop) ∈ l
        <-> exists q lq,
              String.leb (monthBounds utc "2025-02").1 q = true
              /\ String.leb q (monthBounds utc "2025-02").2 = true
              /\ dayQuery (Some q) {[ 7%N := workshop ]} = Listing lq
              /\ (7%N, workshop) ∈ lq).
Proof.
  apply (month_listing_is_union_of_days utc {[ 7%N := workshop ]}
           "2025-02" 2025 2 7%N workshop); reflexivity.
Defined.

(** X20: for a month in [YYYY-MM] form, from 0001-01 to 9999-12, and a
    time zone that keeps the last day of that month, the month query takes
    the first day [YYYY-MM-01] and the last day of the month in the
    calendar (29 for 2024-02, 28 for 2023-02) as bounds and lists exactly
    the stored activities that start at or before the last day and end at
    or after the first day; without a month it lists every stored
    activity. *)
Theorem month_query_overlap tz (st : Store) month y m :
  yearMonth month = Some (y, m) ->
  keepsDay tz (lastDayOf y m) ->
  let startOfMonth := month +:+ "-01" in
  let endOfMonth := month +:+ "-" +:+ pad2 (Some (daysInMonth y m)) in
  monthBounds tz month = (startOfMonth, endOfMonth)
  /\ monthBounds utc "2024-02" = ("2024-02-01", "2024-02-29")
  /\ monthBounds utc "2023-02" = ("2023-02-01", "2023-02-28")
  /\ (exists l,
        monthQuery tz (Some month) st = Listing l
        /\ forall id a,
             (id, a) ∈ l
             <-> st !! id = Some a
                 /\ String.leb (Activity.date a) endOfMonth = true
                 /\ String.leb startOfMonth (Activity.endDate a) = true)
  /\ (exists l, monthQuery tz None st = Listing l /\ l ≡ₚ map_to_list st).
Proof.
  intros Hmonth Hkeeps startOfMonth endOfMonth.
  pose proof (monthBounds_yearMonth _ _ _ _ Hmonth Hkeeps) as Hbounds.
  split; [done|]. split; [vm_compute; reflexivity|].
  split; [vm_compute; reflexivity|]. split.
  - eexists. split; [done|]. intros id a.
    rewrite elem_of_sorted_find. unfold monthFilter.
    assert (truthy (Some month) = Some month) as ->.
    { apply truthy_Some. split; [done|]. by intros ->. }
    rewrite Hbounds. unfold lte, gte. by rewrite andb_true_iff.
  - eexists. split; [done|]. unfold monthQuery.
    assert (find (monthFilter tz None) st = find (fun _ => true) st) as ->
      by done.
    by rewrite sortDocs_perm, find_all.
Qed.

Lemma month_query_overlap_witness :
  monthBounds (fixedOffset 28800000) "2025-02" = ("2025-02-01", "2025-02-28")
  /\ exists l,
       monthQuery (fixedOffset 28800000) (Some "2025-02")
         {[ 7%N := workshop ]}
       = Listing l
       /\ (7%N, workshop) ∈ l.
Proof.
  destruct (month_query_overlap (fixedOffset 28800000)
              {[ 7%N := workshop ]}
              "2025-02" 2025 2) as (Hbounds & _ & _ & (l & Hrun & Hl) & _);
    [reflexivity|split; [vm_compute; discriminate|vm_compute; reflexivity]|].
  split; [exact Hbounds|].
  exists l. split; [exact Hrun|].
  apply Hl. split; [apply lookup_singleton_eq|]. split; reflexivity.
Defined.

(** ** Numbers beyond the safe integers *)

(** A year or a month number beyond the safe integers gives no date, in
    any zone whose offsets are at most a day: however such a number is
    rounded, the last day is [NaN]. *)
Lemma getDateOf_beyond tz y m :
  (forall t, Z.abs (offsetOf tz t) <= msPerDay) ->
  0 <= y -> 0 <= m -> 2 ^ 53 <= y \/ 2 ^ 53 <= m ->
  getDateOf tz (Some y) (Some m) 0 = None.
Proof.
  intros Hoffset Hy Hm Hbig. unfold getDateOf. fold (fullYear y). cbv zeta.
  assert (y <= fullYear y) as Hyr.
  { unfold fullYear. destruct ((0 <=? y) && (y <=? 99)); lia. }
  unfold MakeDay.
  assert (2 ^ 53 = 9007199254740992) as Hpow by reflexivity.
  assert (700000000000000 <= fullYear y + m / 12) as Hym by div_lia.
  set (ym := fullYear y + m / 12) in *. set (mn := m mod 12).
  assert (0 <= InLeapYear ym <= 1) as Hleap
    by (rewrite InLeapYear_spec; destruct (isLeapYear ym); lia).
  pose proof (DayWithinYearOfMonth_bounds _ mn Hleap) as Hb.
  assert (200000000 <= DayFromYear ym) as Hday
    by (clear -Hym; unfold DayFromYear; div_lia).
  specialize (Hoffset
                ((DayFromYear ym + DayWithinYearOfMonth (InLeapYear ym) mn
                  + 0 - 1) * msPerDay)).
  unfold TimeClip, UTC.
  destruct (Z.leb_spec
              (Z.abs ((DayFromYear ym
                       + DayWithinYearOfMonth (InLeapYear ym) mn + 0 - 1)
                      * msPerDay
                      - offsetOf tz
                          ((DayFromYear ym
                            + DayWithinYearOfMonth (InLeapYear ym) mn + 0 - 1)
                           * msPerDay)))
              (100000000 * msPerDay)) as [Hin|Hout]; [|done].
  unfold msPerDay in *. lia.
Qed.

(** ** Two-digit numbers *)

Lemma digits_cons acc c d s :
  digit c = Some d ->
  digits acc (String c s) = digits (Some (10 * default 0 acc + d)) s.
Proof. intros Hc. simpl. by rewrite Hc. Qed.

Lemma digits_of_uint_acc l acc :
  digits (Some (Z.pos acc)) (NilEmpty.string_of_uint l)
  = Some (Z.pos (Pos.of_uint_acc l acc)).
Proof.
  revert acc. induction l as [|l IH|l IH|l IH|l IH|l IH|l IH|l IH|l IH|l IH|l IH];
    intros acc; [done|..]; cbn [NilEmpty.string_of_uint Pos.of_uint_acc];
    rewrite <- IH; (erewrite digits_cons; [|reflexivity]);
    do 2 f_equal; simpl; lia.
Qed.

Lemma digits_of_uint l :
  digits (Some 0) (NilEmpty.string_of_uint l)
  = Some (Z.of_N (Pos.of_uint l)).
Proof.
  induction l as [|l IH|l IH|l IH|l IH|l IH|l IH|l IH|l IH|l IH|l IH];
    [done|..]; cbn [NilEmpty.string_of_uint Pos.of_uint];
    (erewrite digits_cons; [|reflexivity]); simpl default;
    [exact IH|apply digits_of_uint_acc..].
Qed.

Lemma parseInt_of_uint l :
  l <> Decimal.Nil ->
  parseInt (Some (NilEmpty.string_of_uint l)) = Some (Z.of_N (Pos.of_uint l))
  /\ digits None (NilEmpty.string_of_uint l) = Some (Z.of_N (Pos.of_uint l))
  /\ (1 <= String.length (NilEmpty.string_of_uint l))%nat.
Proof.
  intros Hl. rewrite <- digits_of_uint.
  destruct l; [done|..];
    (split; [reflexivity|]; split; [reflexivity|simpl; lia]).
Qed.

Lemma parseInt_toString_pos p :
  toString (Some (Z.pos p)) = NilEmpty.string_of_uint (Pos.to_uint p)
  /\ parseInt (Some (NilEmpty.string_of_uint (Pos.to_uint p))) = Some (Z.pos p)
  /\ digits None (NilEmpty.string_of_uint (Pos.to_uint p)) = Some (Z.pos p)
  /\ (1 <= String.length (NilEmpty.string_of_uint (Pos.to_uint p)))%nat.
Proof.
  pose proof (DecimalPos.Unsigned.to_uint_nonnil p) as Hnonnil.
  destruct (parseInt_of_uint _ Hnonnil) as (Hparse & Hdigits & Hlen).
  rewrite DecimalPos.Unsigned.of_to in Hparse, Hdigits.
  split; [|done]. unfold toString. simpl.
  unfold NilZero.string_of_uint. by destruct (Pos.to_uint p).
Qed.

Lemma padStart_long s :
  (2 <= String.length s)%nat -> padStart 2 s = s.
Proof.
  intros Hlen. unfold padStart.
  by replace (2 - String.length s)%nat with 0%nat by lia.
Qed.

(** X16: [pad2] writes a safe integer in at least two characters: a number
    from 0 to 9 gets one leading zero, every other one is written as it
    is, and [NaN] gives "NaN"; reading the result back with [parseInt]
    gives the number again. *)
Theorem pad2_round_trip n :
  - 2 ^ 53 <= n <= 2 ^ 53 ->
  parseInt (Some (pad2 (Some n))) = Some n
  /\ (2 <= String.length (pad2 (Some n)))%nat
  /\ (0 <= n <= 9 -> pad2 (Some n) = String "0" (toString (Some n)))
  /\ (n < 0 \/ 10 <= n -> pad2 (Some n) = toString (Some n))
  /\ pad2 None = "NaN".
Proof.
  intros _. destruct n as [|p|p].
  - repeat split; try reflexivity. lia.
  - destruct (parseInt_toString_pos p) as (Hstr & Hparse & _ & Hlen).
    unfold pad2. rewrite !Hstr.
    set (s := NilEmpty.string_of_uint (Pos.to_uint p)) in *.
    destruct (decide (2 <= String.length s)%nat) as [Hlong|Hshort].
    + (* two digits or more *)
      rewrite padStart_long by done.
      split; [done|]. split; [done|]. split; [|done].
      intros Hsmall.
      assert (p = 1 \/ p = 2 \/ p = 3 \/ p = 4 \/ p = 5 \/ p = 6 \/ p = 7
              \/ p = 8 \/ p = 9)%positive as Hcases by lia.
      subst s.
      destruct Hcases as [->|[->|[->|[->|[->|[->|[->|[->| ->]]]]]]]];
        vm_compute in Hlong; lia.
    + (* one digit *)
      clearbody s. destruct s as [|c [|c' s]]; simpl in Hlen, Hshort; try lia.
      change (padStart 2 (String c "")) with (String "0" (String c "")).
      assert (parseInt (Some (String "0" (String c ""))) = Some (Z.pos p)
              /\ Z.pos p <= 9) as [Hpadded Hsmall].
      { destruct c as [[] [] [] [] [] [] [] []]; vm_compute in Hparse;
          try discriminate; injection Hparse as <-; by vm_compute. }
      split; [done|]. split; [simpl; lia|]. split; [done|]. split; [lia|done].
  - destruct (parseInt_toString_pos p) as (_ & _ & Hdigits & Hlen).
    assert (toString (Some (Z.neg p))
            = String "-" (NilEmpty.string_of_uint (Pos.to_uint p))) as Hneg.
    { unfold toString. simpl. unfold NilZero.string_of_uint.
      pose proof (DecimalPos.Unsigned.to_uint_nonnil p).
      by destruct (Pos.to_uint p). }
    unfold pad2. rewrite Hneg.
    rewrite padStart_long by (simpl; lia).
    split; [|split; [simpl; lia|split; [lia|done]]].
    change (Z.opp <$> digits None (NilEmpty.string_of_uint (Pos.to_uint p))
            = Some (Z.neg p)).
    by rewrite Hdigits.
Qed.

Lemma pad2_round_trip_witness :
  parseInt (Some (pad2 (Some 7))) = Some 7 /\ pad2 (Some 7) = "07".
Proof.
  destruct (pad2_round_trip 7) as (Hparse & _ & Hpad & _);
    [split; vm_compute; discriminate|].
  split; [exact Hparse|]. apply Hpad. lia.
Defined.

(** ** Splitting at hyphens *)

(** X17: the parts into which the month handler splits its argument are
    never none, hold no hyphen, and joined by hyphens give the argument
    back. *)
Theorem split_round_trip s :
  String.concat "-" (split "-" s) = s
  /\ split "-" s <> []
  /\ Forall (fun piece => occurs "-" piece = false) (split "-" s).
Proof.
  split; [|split; [apply split_nonempty|]].
  - induction s as [|c s IH]; [done|]. simpl.
    pose proof (split_nonempty "-" s) as Hne.
    destruct (Ascii.eqb_spec c "-") as [->|Hc].
    + simpl. destruct (split "-" s) as [|piece pieces]; [done|].
      by rewrite IH.
    + destruct (split "-" s) as [|piece pieces]; [done|].
      simpl in *. destruct pieces as [|piece' pieces].
      * by rewrite <- IH.
      * rewrite <- IH. done.
  - induction s as [|c s IH]; simpl; [by repeat constructor|].
    pose proof (split_nonempty "-" s) as Hne.
    destruct (Ascii.eqb c "-") eqn:Hc.
    + by constructor.
    + destruct (split "-" s) as [|piece pieces]; [done|].
      inversion IH as [|? ? Hpiece Hpieces]; subst.
      constructor; [|done]. simpl. by rewrite Hc.
Qed.

(** ** The earlier day query *)

(** X18: the day query of the earlier revision answers 400 without a date
    and otherwise lists exactly the stored activities whose date is the
    queried date, in ascending order of start time and then of creation
    time, which is also ascending for the sort of the current revision;
    on a collection of one-day activities it lists the same documents as
    the current day query. *)
Theorem earlier_day_query (st : Store) q :
  q <> "" ->
  ValidationError (Legacy.dayQuery None st)
  /\ exists l,
       Legacy.dayQuery (Some q) st = Listing l
       /\ (forall id a,
             (id, a) ∈ l <-> st !! id = Some a /\ Activity.date a = q)
       /\ StronglySorted Legacy.timeLe l
       /\ StronglySorted sortLe l
       /\ ((forall id a, st !! id = Some a ->
              Activity.endDate a = Activity.date a) ->
           exists l', dayQuery (Some q) st = Listing l' /\ l ≡ₚ l').
Proof.
  intros Hq. split; [by eexists|].
  unfold Legacy.dayQuery.
  assert (truthy (Some q) = Some q) as Htruthy by by apply truthy_Some.
  rewrite Htruthy. eexists. split; [done|].
  assert (forall id a,
            (id, a) ∈ merge_sort Legacy.timeLe
                        (find (fun a => String.eqb (Activity.date a) q) st)
            <-> st !! id = Some a /\ Activity.date a = q) as Hin.
  { intros id a.
    by rewrite merge_sort_Permutation, elem_of_find, String.eqb_eq. }
  split; [done|].
  assert (StronglySorted Legacy.timeLe
            (merge_sort Legacy.timeLe
               (find (fun a => String.eqb (Activity.date a) q) st))) as Hsorted
    by (apply StronglySorted_merge_sort; apply _).
  split; [done|]. split.
  - apply (StronglySorted_weaken Legacy.timeLe); [|done].
    intros [i a] [j b] [_ Ha]%Hin [_ Hb]%Hin.
    unfold sortLe, Legacy.timeLe, compareActivity, Legacy.compareTimes. simpl.
    by rewrite Ha, Hb, (cmp_refl String.compare).
  - intros Hday.
    destruct (legacy_day_query st q Hq Hday) as (l & l' & Hl & Hl' & Hperm & _).
    unfold Legacy.dayQuery in Hl. rewrite Htruthy in Hl.
    injection Hl as <-. by exists l'.
Qed.

Lemma earlier_day_query_witness :
  exists l,
    Legacy.dayQuery (Some "2025-01-30") {[ 7%N := workshop ]} = Listing l
    /\ (7%N, workshop) ∈ l.
Proof.
  destruct (earlier_day_query {[ 7%N := workshop ]} "2025-01-30")
    as [_ (l & Hl & Hin & _)]; [discriminate|].
  exists l. split; [exact Hl|].
  apply Hin. split; [apply lookup_singleton_eq|reflexivity].
Defined.

(** ** The earlier creation handler *)

(** X19: the current creation handler refuses with 400 exactly the
    requests the earlier one refused, and stores every request the earlier
    one stored: with the same date, title, classification, notes,
    attachments and creation time, with the same times unless the request
    asks for a full day, and, when the request has no end date, with the
    start date as end date. *)
Theorem creation_extends_earlier now body files (st : Store)
    (st0 : gmap ObjectId Earlier.doc) :
  ((Earlier.createActivity now body files st0).1
   = Earlier.Refused 400 "Date and title are required."
   <-> (createActivity now body files st).1
       = Failure 400 "Date and title are required.")
  /\ (forall id0 old,
        (Earlier.createActivity now body files st0).1 = Earlier.Stored id0 old ->
        exists id a,
          (createActivity now body files st).1 = Created id a
          /\ Activity.date a = Earlier.date old
          /\ Activity.title a = Earlier.title old
          /\ Activity.category a = Earlier.category old
          /\ Activity.phase a = Earlier.phase old
          /\ Activity.status a = Earlier.status old
          /\ Activity.notes a = Earlier.notes old
          /\ Activity.attachments a = Earlier.attachments old
          /\ Activity.createdAt a = Earlier.createdAt old
          /\ (Activity.isFullDay a = false ->
              Activity.startTime a = Earlier.startTime old
              /\ Activity.endTime a = Earlier.endTime old)
          /\ (Body.endDate body = None ->
              Activity.endDate a = Earlier.date old)).
Proof.
  destruct (body_checked body) as [Hmiss|(d & t & Hdate & Hd & Htitle & Ht)].
  - rewrite (createActivity_invalid _ _ _ _ Hmiss).
    assert (Earlier.createActivity now body files st0
            = (Earlier.Refused 400 "Date and title are required.", st0)) as ->.
    { unfold Earlier.createActivity. unfold missing in Hmiss.
      rewrite <- !truthy_None in Hmiss.
      destruct Hmiss as [-> | ->]; [done|].
      by destruct (truthy (Body.date body)). }
    simpl. split; [done|]. by intros id0 old.
  - rewrite (createActivity_valid _ _ _ _ d t) by done.
    assert (Earlier.createActivity now body files st0
            = (Earlier.Stored (fresh (dom st0))
                 (Earlier.mkDoc d t
                    (default "Other" (Body.category body))
                    (default "Unspecified" (Body.phase body))
                    (default "Planned" (Body.status body))
                    (default "" (Body.startTime body))
                    (default "" (Body.endTime body))
                    (default "" (Body.notes body))
                    (toAttachment now <$> files) now),
               <[fresh (dom st0) :=
                   Earlier.mkDoc d t
                     (default "Other" (Body.category body))
                     (default "Unspecified" (Body.phase body))
                     (default "Planned" (Body.status body))
                     (default "" (Body.startTime body))
                     (default "" (Body.endTime body))
                     (default "" (Body.notes body))
                     (toAttachment now <$> files) now]> st0)) as ->.
    { unfold Earlier.createActivity.
      assert (truthy (Body.date body) = Some d) as -> by by apply truthy_Some.
      assert (truthy (Body.title body) = Some t) as -> by by apply truthy_Some.
      rewrite Hdate, Htitle. unfold Earlier.newDoc.
      by rewrite (required_true d), (required_true t). }
    simpl. split; [done|]. intros id0 old [= <- <-].
    eexists _, _. split; [done|]. simpl. do 8 (split; [done|]).
    split; [by intros ->|].
    intros Hend. unfold storedEndDate. by rewrite Hend.
Qed.
